(** * kigit: the ownership ledger, its operations and the branch guard

    A shallow embedding of [model/kitypes.py], [model/errors.py],
    [model/core.py], [model/operations.py] and of the error boundary of
    [cli.py].

    - Python strings are [string]s; the string methods the code calls
      ([strip], [split], [join], [in], [startswith]) are written out below.
    - Exceptions are values of [exn]; the classes of [errors.py] are the
      constructors of [ProgramError].
    - The code talks to git (through GitPython) and to the file system.
      Each such call is a command of [cmd]; a program is a tree of commands
      ([prog]), and [run] executes it against an arbitrary environment,
      returning the result, the final environment and the commands issued.
      The two library failures that [core.py] itself catches (a failing
      [git checkout], a failing [git show]) are answers of the environment;
      library exceptions that no code of the repository mentions are not
      modelled. *)

From Stdlib Require Import String Ascii List Bool Arith ZArith Lia.
Import ListNotations.
Open Scope string_scope.
Open Scope list_scope.

(* ================================================================= *)
(** ** Python string methods used by the code *)

Module PyStr.

(** [c in s] for a one-character string [c]. *)
Fixpoint contains (c : ascii) (s : string) : bool :=
  match s with
  | EmptyString => false
  | String a s' => Ascii.eqb a c || contains c s'
  end.

(** [s.lstrip(c)] for a one-character string [c]. *)
Fixpoint lstrip (c : ascii) (s : string) : string :=
  match s with
  | EmptyString => EmptyString
  | String a s' => if Ascii.eqb a c then lstrip c s' else s
  end.

(** [s.rstrip(c)]. *)
Fixpoint rstrip (c : ascii) (s : string) : string :=
  match s with
  | EmptyString => EmptyString
  | String a s' =>
      match rstrip c s' with
      | EmptyString => if Ascii.eqb a c then EmptyString else String a EmptyString
      | r => String a r
      end
  end.

(** [s.strip(c)]. *)
Definition strip (c : ascii) (s : string) : string := rstrip c (lstrip c s).

(** [s.split(sep)] for a one-character separator: never the empty list. *)
Fixpoint split (sep : ascii) (s : string) : list string :=
  match s with
  | EmptyString => [EmptyString]
  | String a s' =>
      if Ascii.eqb a sep then EmptyString :: split sep s'
      else match split sep s' with
           | [] => [String a EmptyString]
           | x :: xs => String a x :: xs
           end
  end.

(** [sep.join(l)]. *)
Fixpoint join (sep : string) (l : list string) : string :=
  match l with
  | [] => EmptyString
  | [x] => x
  | x :: xs => x ++ sep ++ join sep xs
  end.

(** [s.startswith(p)]. *)
Definition startswith (p s : string) : bool := String.prefix p s.

(** [s.split(sep, maxsplit=1)]: one or two pieces. *)
Fixpoint split1 (sep : ascii) (s : string) : list string :=
  match s with
  | EmptyString => [EmptyString]
  | String a s' =>
      if Ascii.eqb a sep then [EmptyString; s']
      else match split1 sep s' with
           | x :: xs => String a x :: xs
           | [] => [String a EmptyString]
           end
  end.

(** [s.endswith(c)] for a one-character string [c]. *)
Fixpoint endswith_char (c : ascii) (s : string) : bool :=
  match s with
  | EmptyString => false
  | String a EmptyString => Ascii.eqb a c
  | String _ s' => endswith_char c s'
  end.

(** [x in l] for a list of strings. *)
Definition mem (x : string) (l : list string) : bool :=
  existsb (String.eqb x) l.

(** [not s]: the empty string is falsy. *)
Definition is_empty (s : string) : bool :=
  match s with EmptyString => true | _ => false end.

Definition newline : ascii := Ascii.ascii_of_nat 10.
Definition nl : string := String newline EmptyString.

End PyStr.

(* ================================================================= *)
(** ** [model/kitypes.py] *)

(** [Entry = Tuple[str, List[str], str]]: (branch, folders, owner). *)
Definition Entry : Type := string * list string * string.

Definition entry_branch (e : Entry) : string := fst (fst e).
Definition entry_folders (e : Entry) : list string := snd (fst e).
Definition entry_owner (e : Entry) : string := snd e.

Inductive Platform := LINUX | DARWIN | WINDOWS.

Inductive Perm := READ_WRITE | READ_ONLY.

Inductive OwnershipType := CLAIMED | UNCLAIMED.

(** [file_flags[platform][perm.value]]: (regular, read only), octal. *)
Definition file_flags (p : Platform) (perm : Perm) : Z :=
  match p, perm with
  | LINUX, READ_WRITE => 438     (* 0o666 *)
  | LINUX, READ_ONLY => 292      (* 0o444 *)
  | DARWIN, READ_WRITE => 438
  | DARWIN, READ_ONLY => 292
  | WINDOWS, READ_WRITE => 384   (* 0o600 *)
  | WINDOWS, READ_ONLY => 256    (* 0o400 *)
  end%Z.

(* ================================================================= *)
(** ** [model/errors.py] *)

(** The concrete subclasses of [ProgramError]. [BranchError] is the base
    class of the last seven and is never raised itself. *)
Inductive ProgramError :=
| UnsavedError
| InvalidRepositoryError
| UnknownPlatformError
| InvalidFolderError
| UnspecifiedFoldersError
| MissingFolderError
| ApplyPermissionsError
| AlreadyOwnedError
| DuplicateRemoteBranchError
| DuplicateLocalBranchError
| DuplicateStatusBranchError
| MissingBranchError
| UnassociatedBranchError
| UnownedBranchError
| ProtectedBranchError.

Definition is_BranchError (e : ProgramError) : bool :=
  match e with
  | DuplicateRemoteBranchError | DuplicateLocalBranchError
  | DuplicateStatusBranchError | MissingBranchError
  | UnassociatedBranchError | UnownedBranchError
  | ProtectedBranchError => true
  | _ => false
  end.

(** Everything the code can raise: its own errors, the Python built-in
    exceptions its statements raise ([ValueError] from a tuple unpacking of
    the wrong length or from [list.remove], [IndexError] from an index past
    the end), and the [SystemExit] of [sys.exit]. *)
Inductive exn :=
| Program (e : ProgramError)
| ValueError
| IndexError
| SystemExit (code : Z).

Definition is_ProgramError (e : exn) : bool :=
  match e with Program _ => true | _ => false end.

Inductive result (A : Type) :=
| Ok (a : A)
| Err (e : exn).
Arguments Ok {A} a.
Arguments Err {A} e.

(* ================================================================= *)
(** ** [check_ownership] ([model/operations.py]) *)

Definition check_ownership (user_email owner : string)
    (ownership_type : OwnershipType) : result unit :=
  match ownership_type with
  | UNCLAIMED =>
      if String.eqb owner user_email then Err (Program AlreadyOwnedError)
      else if negb (String.eqb owner "") then Err (Program ProtectedBranchError)
      else Ok tt
  | CLAIMED =>
      if String.eqb owner "" then Err (Program UnownedBranchError)
      else if negb (String.eqb owner user_email)
           then Err (Program ProtectedBranchError)
      else Ok tt
  end.

(* ================================================================= *)
(** ** Programs over the repository and the file system *)

(** The calls the code makes to GitPython, [os] and the terminal. *)
Inductive cmd :=
| GitPull                              (* repo.remotes.origin.pull() *)
| GitAdd (items : list string)         (* repo.git.add(items) *)
| GitCommit (msg : string)             (* repo.git.commit("-m", msg) *)
| GitPush                              (* repo.remotes.origin.push() *)
| GitFetch (branch : string)           (* repo.git.fetch("origin", branch) *)
| GitShow (rev : string)               (* repo.git.show(rev) *)
| ActiveBranch                         (* str(repo.active_branch) *)
| GitRemoteUpdate                      (* repo.git.remote("update", "origin", "--prune") *)
| RemoteRefs                           (* [ref.name for ref in repo.remote().refs] *)
| Branches                             (* [str(br) for br in repo.branches] *)
| GitCheckout (branch : string)        (* repo.git.checkout(branch) *)
| ConfigUserName                       (* repo.config_reader().get_value("user", "name") *)
| GitPushUpstream (branch : string)    (* repo.git.push("--set-upstream", "origin", branch) *)
| CreateHeadCheckout (branch : string) (* repo.create_head(branch).checkout() *)
| GitCheckoutOrphan (branch : string)  (* repo.git.checkout("--orphan", branch) *)
| GitResetDot                          (* repo.git.reset(".") *)
| GitClean                             (* repo.git.clean("-fxfd") *)
| GitStashU                            (* repo.git.stash("-u") *)
| GitStashPop                          (* repo.git.stash("pop") *)
| WriteFile (path content : string)    (* with open(path, "w") as f: f.write(content) *)
| Scandir                              (* [(f.name, f.is_dir()) for f in os.scandir(".")] *)
| Walk (folder : string)               (* [(root, files) for root, _, files in os.walk(folder)] *)
| Chmod (path : string) (mode : Z)     (* os.chmod(path, mode) *)
| PathExists (path : string)           (* os.path.exists(path) *)
| PrintLine (line : string).           (* print(line) *)

(** What each call answers. [git show] answers [None] and [git checkout]
    answers [false] where GitPython raises [GitCommandError], the exception
    [core.py] catches at these two calls. *)
Definition resp (c : cmd) : Type :=
  match c with
  | GitShow _ => option string
  | ActiveBranch | ConfigUserName | GitStashU => string
  | RemoteRefs | Branches => list string
  | GitCheckout _ | PathExists _ => bool
  | Scandir => list (string * bool)
  | Walk _ => list (string * list string)
  | _ => unit
  end.

Inductive prog (A : Type) : Type :=
| Ret (a : A)
| Raise (e : exn)
| Call (c : cmd) (k : resp c -> prog A).
Arguments Ret {A} a.
Arguments Raise {A} e.
Arguments Call {A} c k.

Fixpoint bind {A B} (m : prog A) (f : A -> prog B) : prog B :=
  match m with
  | Ret a => f a
  | Raise e => Raise e
  | Call c k => Call c (fun r => bind (k r) f)
  end.

Definition call (c : cmd) : prog (resp c) := Call c Ret.

Definition lift {A} (r : result A) : prog A :=
  match r with Ok a => Ret a | Err e => Raise e end.

Declare Scope prog_scope.
Delimit Scope prog_scope with prog.
Notation "x <- m ;; k" := (bind m (fun x => k))
  (at level 61, m at next level, right associativity) : prog_scope.
Notation "' p <- m ;; k" := (bind m (fun x => match x with p => k end))
  (at level 61, p pattern, m at next level, right associativity) : prog_scope.
Notation "m ;; k" := (bind m (fun _ => k))
  (at level 61, right associativity) : prog_scope.
Open Scope prog_scope.

(** [for x in l: body(x)]. *)
Fixpoint for_each {X} (l : list X) (body : X -> prog unit) : prog unit :=
  match l with
  | [] => Ret tt
  | x :: xs => body x ;; for_each xs body
  end.

(** A [for] loop that updates a local variable [s]. *)
Fixpoint for_fold {X S} (l : list X) (s : S) (body : S -> X -> prog S) : prog S :=
  match l with
  | [] => Ret s
  | x :: xs => s' <- body s x ;; for_fold xs s' body
  end.

(** [try: body / except: handler]; [handler e = None] when no [except]
    clause matches [e]. *)
Fixpoint try_except {A} (body : prog A) (handler : exn -> option (prog A)) : prog A :=
  match body with
  | Ret a => Ret a
  | Raise e => match handler e with Some h => h | None => Raise e end
  | Call c k => Call c (fun r => try_except (k r) handler)
  end.

(** The exit half of a [with] statement whose [__exit__] returns a falsy
    value: [fin] runs when [body] returns and when it raises, and the
    exception of [body] is raised again afterwards; an exception of [fin]
    itself replaces it. *)
Fixpoint finally {A} (body : prog A) (fin : prog unit) : prog A :=
  match body with
  | Ret a => fin ;; Ret a
  | Raise e => fin ;; Raise e
  | Call c k => Call c (fun r => finally (k r) fin)
  end.

(** [with mgr: body], for a manager whose [__enter__] computes the saved
    state [S] and whose [__exit__] reads it. *)
Definition with_ {S A} (enter : prog S) (exit : S -> prog unit) (body : prog A) : prog A :=
  s <- enter ;; finally body (exit s).

(** Running a program in an environment: the answer of each call and the
    environment after it are given by [handler]. *)
Section Run.
Variable world : Type.
Variable handler : forall c : cmd, world -> resp c * world.

Fixpoint run {A} (p : prog A) (w : world) : result A * world * list cmd :=
  match p with
  | Ret a => (Ok a, w, [])
  | Raise e => (Err e, w, [])
  | Call c k =>
      let (r, w1) := handler c w in
      let '(res, w2, t) := run (k r) w1 in
      (res, w2, c :: t)
  end.

Definition outcome {A} (p : prog A) (w : world) : result A := fst (fst (run p w)).
Definition final {A} (p : prog A) (w : world) : world := snd (fst (run p w)).
Definition trace {A} (p : prog A) (w : world) : list cmd := snd (run p w).
End Run.
Arguments run {world} handler {A} p w.
Arguments outcome {world} handler {A} p w.
Arguments final {world} handler {A} p w.
Arguments trace {world} handler {A} p w.

(* ================================================================= *)
(** ** [model/core.py] *)

(** The fields of [Core] the operations read; [repo] is the environment. *)
Record Core := {
  status_branch : string;
  status_file : string;
  platform : Platform
}.

Definition pull : prog unit := call GitPull.
Definition add (items : list string) : prog unit := call (GitAdd items).
Definition commit (msg : string) : prog unit := call (GitCommit msg).
Definition push : prog unit := call GitPush.

Definition add_commit_push (folders : list string) (msg : string) : prog unit :=
  add folders ;; commit msg ;; push.

Definition show_file_from_origin (branch file : string) : prog string :=
  call (GitFetch branch) ;;
  r <- call (GitShow ("origin/" ++ branch ++ ":" ++ file)) ;;
  match r with
  | Some s => Ret s
  | None => Ret ""            (* except git.exc.GitCommandError: return "" *)
  end.

Definition get_working_branch : prog string := call ActiveBranch.

Definition get_remote_branches : prog (list string) :=
  call GitRemoteUpdate ;;
  remote_refs <- call RemoteRefs ;;
  for_fold remote_refs [] (fun res name =>
    if PyStr.startswith "origin/HEAD" name then Ret res
    else match nth_error (PyStr.split1 "/" name) 1 with
         | Some b => Ret (res ++ [b])
         | None => Raise IndexError
         end).

Definition get_local_branches : prog (list string) := call Branches.

Definition to_branch (branch : string) : prog unit :=
  ok <- call (GitCheckout branch) ;;
  if ok : bool then Ret tt
  else Raise (Program UnsavedError). (* except GitCommandError: raise UnsavedError *)

Definition get_user_name : prog string := call ConfigUserName.

Definition push_upstream_origin (branch : string) : prog unit :=
  call (GitPushUpstream branch).

Definition create_remote_branch (branch : string) : prog unit :=
  call (CreateHeadCheckout branch) ;; push_upstream_origin branch.

Definition create_orphan_branch (branch : string) : prog unit :=
  call (GitCheckoutOrphan branch) ;; call GitResetDot ;; call GitClean.

Definition stash_untracked : prog bool :=
  out <- call GitStashU ;;
  Ret (negb (String.eqb out "No local changes to save")).

Definition stash_pop : prog unit := call GitStashPop.

(* ================================================================= *)
(** ** [model/operations.py]: helper functions *)

(** The state a [SaveBranch] object holds after [__enter__]. *)
Record SaveBranch := {
  sb_branch : string;
  sb_stash : bool
}.

Definition SaveBranch_enter : prog SaveBranch :=
  branch <- get_working_branch ;;
  stash <- stash_untracked ;;
  Ret {| sb_branch := branch; sb_stash := stash |}.

Definition SaveBranch_exit (self : SaveBranch) : prog unit :=
  to_branch (sb_branch self) ;;
  if sb_stash self then stash_pop else Ret tt.

(** [with SaveBranch(core): body]. *)
Definition with_SaveBranch {A} (body : prog A) : prog A :=
  with_ SaveBranch_enter SaveBranch_exit body.

Definition create_status_branch (core : Core) : prog unit :=
  local_branches <- get_local_branches ;;
  if PyStr.mem "status" local_branches
  then Raise (Program DuplicateStatusBranchError)
  else
    with_SaveBranch (
      create_orphan_branch (status_branch core) ;;
      call (WriteFile (status_file core) "") ;;
      add [status_file core] ;;
      commit "Add status file" ;;
      push_upstream_origin (status_branch core)).

(** The loop of [get_entries] over the records of the status file:
    [entries] is the list built so far. *)
Fixpoint parse_records (remote_branches : list string) (records : list string)
    (entries : list Entry) : result (list Entry) :=
  match records with
  | [] => Ok entries
  | entry_str :: rest =>
      match PyStr.split ";" entry_str with
      | [branch; folderstr; owner] =>
          parse_records remote_branches rest
            (if PyStr.mem branch remote_branches
             then entries ++ [(branch, PyStr.split "," folderstr, owner)]
             else entries)
      | _ => Err ValueError     (* unpacking into three names *)
      end
  end.

(** What [get_entries] does with the text [show_file_from_origin] returned. *)
Definition decode_status (remote_branches : list string) (content : string)
    : result (list Entry) :=
  let status_str := PyStr.strip PyStr.newline content in
  if PyStr.is_empty status_str then Ok []
  else parse_records remote_branches (PyStr.split PyStr.newline status_str) [].

Definition get_entries (core : Core) (remote_branches : list string)
    : prog (list Entry) :=
  (if negb (PyStr.mem (status_branch core) remote_branches)
   then create_status_branch core else Ret tt) ;;
  content <- show_file_from_origin (status_branch core) (status_file core) ;;
  lift (decode_status remote_branches content).

(** [os.path.join(root, file_name)] for a relative [file_name], with the
    POSIX separator. *)
Definition path_join (root file_name : string) : string :=
  if PyStr.is_empty root || PyStr.endswith_char "/" root
  then root ++ file_name
  else root ++ "/" ++ file_name.

Definition set_folder_perms (platform : Platform) (folder : string) (perm : Perm)
    : prog unit :=
  walked <- call (Walk folder) ;;
  for_each walked (fun '(root, files) =>
    for_each files (fun file_name =>
      call (Chmod (path_join root file_name) (file_flags platform perm)))).

(** [next(x for x in entries if x[0] == branch)]; [None] is [StopIteration]. *)
Definition next_entry (branch : string) (entries : list Entry) : option Entry :=
  find (fun e => String.eqb (entry_branch e) branch) entries.

Definition update_perms_using_entries (platform : Platform) (user_email : string)
    (entries : list Entry) (branch : string) : prog unit :=
  match next_entry branch entries with
  | None => Ret tt                       (* except StopIteration: return *)
  | Some (_, free_folders, owner) =>
      let checked := String.eqb owner user_email in
      listing <- call Scandir ;;
      free_count <- for_fold listing 0 (fun free_count '(name, is_dir) =>
        if negb (PyStr.startswith "." name) && is_dir then
          if checked && PyStr.mem name free_folders then
            set_folder_perms platform name READ_WRITE ;;
            Ret (free_count + 1)%nat
          else
            set_folder_perms platform name READ_ONLY ;;
            Ret free_count
        else Ret free_count) ;;
      if checked && negb (Nat.eqb free_count (List.length free_folders))
      then Raise (Program ApplyPermissionsError)
      else Ret tt
  end.

Definition string_list_eqb (a b : list string) : bool :=
  if list_eq_dec string_dec a b then true else false.

(** [==] on the tuples of the ledger. *)
Definition Entry_eqb (a b : Entry) : bool :=
  String.eqb (entry_branch a) (entry_branch b)
  && string_list_eqb (entry_folders a) (entry_folders b)
  && String.eqb (entry_owner a) (entry_owner b).

(** [l.remove(x)]: drops the first element equal to [x]; [ValueError] when
    there is none. *)
Fixpoint list_remove (x : Entry) (l : list Entry) : result (list Entry) :=
  match l with
  | [] => Err ValueError
  | y :: ys =>
      if Entry_eqb y x then Ok ys
      else match list_remove x ys with
           | Ok ys' => Ok (y :: ys')
           | Err e => Err e
           end
  end.

Definition get_filtered_entries (core : Core) (branch : string)
    : prog (list Entry * Entry) :=
  remote_branches <- get_remote_branches ;;
  entries <- get_entries core remote_branches ;;
  if negb (PyStr.mem branch remote_branches)
  then Raise (Program MissingBranchError)
  else
    match next_entry branch entries with
    | Some branch_entry =>
        entries' <- lift (list_remove branch_entry entries) ;;
        Ret (entries', branch_entry)
    | None => Raise (Program UnassociatedBranchError)
    end.

(** One [file.write] of [save_entries]:
    [f"{branch};{','.join(folders)};{owner}\n"]. *)
Definition encode_entry (e : Entry) : string :=
  let '(branch, folders, owner) := e in
  (branch ++ ";" ++ PyStr.join "," folders ++ ";" ++ owner ++ PyStr.nl)%string.

(** The text [save_entries] leaves in the status file: one write per entry. *)
Definition encode_entries (entries : list Entry) : string :=
  fold_right (fun e written => (encode_entry e ++ written)%string) "" entries.

Definition save_entries (core : Core) (entries : list Entry) (msg : string)
    : prog unit :=
  to_branch (status_branch core) ;;
  pull ;;
  call (WriteFile (status_file core) (encode_entries entries)) ;;
  add_commit_push [status_file core] msg.

(* ================================================================= *)
(** ** [model/operations.py]: operations *)

(** The test of [create_branch] on one folder name. *)
Definition invalid_folder (folder : string) : bool :=
  String.eqb folder "."
  || PyStr.contains "/" folder
  || PyStr.contains "\" folder
  || PyStr.contains "," folder
  || PyStr.contains ";" folder.

Definition create_branch (core : Core) (branch : string) (folders : list string)
    : prog unit :=
  if Nat.eqb (List.length folders) 0
  then Raise (Program UnspecifiedFoldersError)
  else
    for_each folders (fun folder =>
      if invalid_folder folder then Raise (Program InvalidFolderError)
      else Ret tt) ;;
    remote_branches <- get_remote_branches ;;
    entries <- get_entries core remote_branches ;;
    local_branches <- get_local_branches ;;
    if PyStr.mem branch remote_branches
    then Raise (Program DuplicateRemoteBranchError)
    else if PyStr.mem branch local_branches
    then Raise (Program DuplicateLocalBranchError)
    else
      let entries := entries ++ [(branch, folders, "")] in
      with_SaveBranch (
        save_entries core entries ("Add branch " ++ branch) ;;
        to_branch "main" ;;
        pull ;;
        create_remote_branch branch) ;;
      user_name <- get_user_name ;;
      working_branch <- get_working_branch ;;
      update_perms_using_entries (platform core) user_name entries working_branch.

Definition checkin_branch (core : Core) (branch : string) : prog unit :=
  '(entries, (_, folders, owner)) <- get_filtered_entries core branch ;;
  user_email <- get_user_name ;;
  lift (check_ownership user_email owner CLAIMED) ;;
  let entries := entries ++ [(branch, folders, "")] in
  with_SaveBranch (
    save_entries core entries ("Checkin " ++ branch ++ " by " ++ user_email)) ;;
  working_branch <- get_working_branch ;;
  update_perms_using_entries (platform core) user_email entries working_branch.

Definition checkout_branch (core : Core) (branch : string) : prog unit :=
  '(entries, (_, folders, owner)) <- get_filtered_entries core branch ;;
  user_email <- get_user_name ;;
  lift (check_ownership user_email owner UNCLAIMED) ;;
  let entries := entries ++ [(branch, folders, user_email)] in
  with_SaveBranch (
    save_entries core entries ("Checkout " ++ branch ++ " by " ++ user_email)) ;;
  working_branch <- get_working_branch ;;
  update_perms_using_entries (platform core) user_email entries working_branch.

Definition save_branch (core : Core) (msg : string) : prog unit :=
  working_branch <- get_working_branch ;;
  '(_, (_, folders, owner)) <- get_filtered_entries core working_branch ;;
  user_email <- get_user_name ;;
  lift (check_ownership user_email owner CLAIMED) ;;
  for_each folders (fun folder =>
    found <- call (PathExists folder) ;;
    if found : bool then Ret tt else Raise (Program MissingFolderError)) ;;
  add_commit_push folders msg.

Definition branch_status (core : Core) : prog (list Entry) :=
  remote_branches <- get_remote_branches ;;
  get_entries core remote_branches.

Definition move_branch (core : Core) (branch : string) : prog unit :=
  remote_branches <- get_remote_branches ;;
  entries <- get_entries core remote_branches ;;
  to_branch branch ;;
  user_name <- get_user_name ;;
  update_perms_using_entries (platform core) user_name entries branch.

(* ================================================================= *)
(** ** [cli.py]: the error boundary *)

Inductive Color :=
| ENDC | BOLD | UNDERLINE | BLACK | RED | GREEN | YELLOW | BLUE | MAGENTA
| CYAN | WHITE.

Definition esc : string := String (Ascii.ascii_of_nat 27) EmptyString.

Definition Color_value (c : Color) : string :=
  (esc ++ match c with
          | ENDC => "[0m" | BOLD => "[1m" | UNDERLINE => "[4m"
          | BLACK => "[90m" | RED => "[91m" | GREEN => "[92m"
          | YELLOW => "[93m" | BLUE => "[94m" | MAGENTA => "[95m"
          | CYAN => "[96m" | WHITE => "[97m"
          end)%string.

Definition color (msg : string) (colors : list Color) : string :=
  let res := fold_left (fun res clr => (res ++ Color_value clr)%string) colors "" in
  (res ++ msg ++ Color_value ENDC)%string.

(** [error_msgs]: the message of each error class of [errors.py]. (The
    dictionary has two more keys, configuration errors that [main] raises
    outside of [run_operation_log_result].) *)
Definition error_msgs (e : ProgramError) : option string :=
  Some match e with
  | UnsavedError => color "Work not saved" [RED]
  | InvalidRepositoryError => color "Working directory is not a repository" [RED]
  | UnknownPlatformError => color "Unknown operating system" [RED]
  | UnspecifiedFoldersError => color "Specify folder(s) for branch creation" [RED]
  | InvalidFolderError => color "Can only specify relative folders in branch" [RED]
  | MissingFolderError => color "Folder missing" [RED]
  | ApplyPermissionsError => color "Failed to apply permision to folder" [YELLOW]
  | DuplicateRemoteBranchError => color "Branch already exists remotely" [RED]
  | DuplicateLocalBranchError => color "Branch already exists localy" [RED]
  | DuplicateStatusBranchError => color "Remove local status branch" [RED]
  | MissingBranchError => color "Branch does not exist" [RED]
  | UnassociatedBranchError => color "Branch has no entry" [RED]
  | UnownedBranchError => color "Branch has no owner" [RED]
  | ProtectedBranchError => color "Branch is protected" [RED]
  | AlreadyOwnedError => color "Branch already owned" [YELLOW]
  end.

(** [try: return func(core, *args) / except errors.ProgramError as e: ...];
    [func] is the operation already applied to its arguments. An exception
    that is no [ProgramError] matches no [except] clause. *)
Definition run_operation_log_result {A} (func : prog A) : prog A :=
  try_except func (fun e =>
    match e with
    | Program pe =>
        Some (match error_msgs pe with
              | Some m => call (PrintLine m)
              | None => call (PrintLine "Encountered an unexpected error: ")
              end ;;
              Raise (SystemExit 1))
    | _ => None
    end).

Definition cli_new_branch (core : Core) (branch : string) (folders : list string)
    : prog unit :=
  run_operation_log_result (create_branch core branch folders) ;;
  call (PrintLine (color ("Successfully created branch " ++ branch) [GREEN])).

Definition cli_checkin (core : Core) (branch : string) : prog unit :=
  run_operation_log_result (checkin_branch core branch) ;;
  call (PrintLine (color ("Successfully checked in branch " ++ branch) [GREEN])).

Definition cli_checkout (core : Core) (branch : string) : prog unit :=
  run_operation_log_result (checkout_branch core branch) ;;
  call (PrintLine (color ("Successfully checked out branch " ++ branch) [GREEN])).

Definition cli_move (core : Core) (branch : string) : prog unit :=
  run_operation_log_result (move_branch core branch) ;;
  call (PrintLine (color ("Successfully moved to branch " ++ branch) [GREEN])).

(** The part of the [status] command before the table is printed. *)
Definition cli_status_entries (core : Core) : prog (list Entry) :=
  run_operation_log_result (branch_status core).

(* ================================================================= *)
(** ** A small repository to run the operations against *)

(** One clone and its origin, as far as the operations can tell them apart:
    the ledger file at the remote status ref, the file last written in the
    working tree (published by the next push), the branches on both sides,
    and the top-level directories with their files. *)
Record Repo := {
  r_user : string;
  r_active : string;
  r_local : list string;
  r_remote : list string;
  r_ledger : option string;
  r_written : option string;
  r_dirty : bool;
  r_blocked : list string;
  r_dirs : list (string * bool);
  r_files : list (string * list (string * list string))
}.

Definition set_active (b : string) (r : Repo) : Repo :=
  {| r_user := r_user r; r_active := b; r_local := r_local r;
     r_remote := r_remote r; r_ledger := r_ledger r; r_written := r_written r;
     r_dirty := r_dirty r; r_blocked := r_blocked r; r_dirs := r_dirs r;
     r_files := r_files r |}.

Definition add_local (b : string) (r : Repo) : Repo :=
  {| r_user := r_user r; r_active := b; r_local := r_local r ++ [b];
     r_remote := r_remote r; r_ledger := r_ledger r; r_written := r_written r;
     r_dirty := r_dirty r; r_blocked := r_blocked r; r_dirs := r_dirs r;
     r_files := r_files r |}.

Definition set_dirty (d : bool) (r : Repo) : Repo :=
  {| r_user := r_user r; r_active := r_active r; r_local := r_local r;
     r_remote := r_remote r; r_ledger := r_ledger r; r_written := r_written r;
     r_dirty := d; r_blocked := r_blocked r; r_dirs := r_dirs r;
     r_files := r_files r |}.

Definition set_written (c : string) (r : Repo) : Repo :=
  {| r_user := r_user r; r_active := r_active r; r_local := r_local r;
     r_remote := r_remote r; r_ledger := r_ledger r; r_written := Some c;
     r_dirty := r_dirty r; r_blocked := r_blocked r; r_dirs := r_dirs r;
     r_files := r_files r |}.

(** A push publishes the file written in the working tree, if any; a push
    with upstream tracking also creates the remote ref. *)
Definition publish (new_ref : list string) (r : Repo) : Repo :=
  {| r_user := r_user r; r_active := r_active r; r_local := r_local r;
     r_remote := r_remote r ++ new_ref;
     r_ledger := match r_written r with Some c => Some c | None => r_ledger r end;
     r_written := None;
     r_dirty := r_dirty r; r_blocked := r_blocked r; r_dirs := r_dirs r;
     r_files := r_files r |}.

Definition files_of (folder : string) (r : Repo) : list (string * list string) :=
  match find (fun p => String.eqb (fst p) folder) (r_files r) with
  | Some p => snd p
  | None => []
  end.

Definition git (c : cmd) (r : Repo) : resp c * Repo :=
  match c return resp c * Repo with
  | GitShow _ => (r_ledger r, r)
  | ActiveBranch => (r_active r, r)
  | ConfigUserName => (r_user r, r)
  | GitStashU =>
      (if r_dirty r then "Saved working directory and index state"
       else "No local changes to save", set_dirty false r)
  | GitStashPop => (tt, set_dirty true r)
  | RemoteRefs => (r_remote r, r)
  | Branches => (r_local r, r)
  | GitCheckout b =>
      if PyStr.mem b (r_blocked r) then (false, r) else (true, set_active b r)
  | PathExists p => (existsb (fun d => String.eqb (fst d) p) (r_dirs r), r)
  | Scandir => (r_dirs r, r)
  | Walk folder => (files_of folder r, r)
  | WriteFile _ content => (tt, set_written content r)
  | GitPush => (tt, publish [] r)
  | GitPushUpstream b => (tt, publish [("origin/" ++ b)%string] r)
  | CreateHeadCheckout b => (tt, add_local b r)
  | GitCheckoutOrphan b => (tt, add_local b r)
  | GitPull | GitAdd _ | GitCommit _ | GitFetch _ | GitRemoteUpdate
  | GitResetDot | GitClean | Chmod _ _ | PrintLine _ => (tt, r)
  end.

Definition demo_core : Core :=
  {| status_branch := "status"; status_file := "status.txt"; platform := LINUX |}.

(** A fresh clone: only [main] exists, no status branch yet. *)
Definition fresh (user : string) : Repo :=
  {| r_user := user; r_active := "main"; r_local := ["main"];
     r_remote := ["origin/HEAD"; "origin/main"]; r_ledger := None;
     r_written := None; r_dirty := false; r_blocked := [];
     r_dirs := [(".git", true); ("partA", true); ("partB", true); ("README", false)];
     r_files := [("partA", [("partA", ["a.sch"; "a.pcb"])]);
                 ("partB", [("partB", ["b.sch"])])] |}.

Definition as_user (user : string) (r : Repo) : Repo :=
  {| r_user := user; r_active := r_active r; r_local := r_local r;
     r_remote := r_remote r; r_ledger := r_ledger r; r_written := r_written r;
     r_dirty := r_dirty r; r_blocked := r_blocked r; r_dirs := r_dirs r;
     r_files := r_files r |}.

(* ================================================================= *)
(** ** Predicates used in the statements *)

Definition avoids_delimiters (s : string) : bool :=
  negb (PyStr.contains ";" s)
  && negb (PyStr.contains "," s)
  && negb (PyStr.contains PyStr.newline s).

Definition names_avoid_delimiters (ledger : list Entry) : bool :=
  forallb (fun e => avoids_delimiters (entry_branch e)
                    && forallb avoids_delimiters (entry_folders e)) ledger.

Definition branches_in (remote_branches : list string) (ledger : list Entry) : bool :=
  forallb (fun e => PyStr.mem (entry_branch e) remote_branches) ledger.

Definition folders_nonempty (ledger : list Entry) : bool :=
  forallb (fun e => negb (Nat.eqb (List.length (entry_folders e)) 0)) ledger.

Definition owners_avoid_separators (ledger : list Entry) : bool :=
  forallb (fun e => negb (PyStr.contains ";" (entry_owner e))
                    && negb (PyStr.contains PyStr.newline (entry_owner e))) ledger.

Definition record_of (e : Entry) : string :=
  let '(branch, folders, owner) := e in
  (branch ++ ";" ++ PyStr.join "," folders ++ ";" ++ owner)%string.

Definition entry_round_trips (remote_branches : list string) (e : Entry) : bool :=
  avoids_delimiters (entry_branch e)
  && forallb avoids_delimiters (entry_folders e)
  && PyStr.mem (entry_branch e) remote_branches
  && negb (Nat.eqb (List.length (entry_folders e)) 0)
  && (negb (PyStr.contains ";" (entry_owner e))
      && negb (PyStr.contains PyStr.newline (entry_owner e))).


(** The six cases of [check_ownership] read as independent implications. *)
Definition ownership_cases_independent (identity owner : string) : Prop :=
  (owner = identity ->
   check_ownership identity owner UNCLAIMED = Err (Program AlreadyOwnedError))
  /\ (owner <> identity -> owner <> "" ->
      check_ownership identity owner UNCLAIMED = Err (Program ProtectedBranchError))
  /\ (owner = "" -> check_ownership identity owner UNCLAIMED = Ok tt)
  /\ (owner = "" ->
      check_ownership identity owner CLAIMED = Err (Program UnownedBranchError))
  /\ (owner <> "" -> owner <> identity ->
      check_ownership identity owner CLAIMED = Err (Program ProtectedBranchError))
  /\ (owner = identity -> check_ownership identity owner CLAIMED = Ok tt).

(** The environment after the commands [t], whatever they answered. *)
Definition exec_all {world} (h : forall c : cmd, world -> resp c * world)
    (t : list cmd) (w : world) : world :=
  fold_left (fun w c => snd (h c w)) t w.

Definition is_StashPop (c : cmd) : bool :=
  match c with GitStashPop => true | _ => false end.

Definition is_PrintLine (c : cmd) : bool :=
  match c with PrintLine _ => true | _ => false end.

(** A working tree with local edits, on [main], where checking [main] out
    again is refused. *)
Definition stuck_repo : Repo :=
  {| r_user := "alice"; r_active := "main"; r_local := ["main"; "status"];
     r_remote := ["origin/main"; "origin/status"]; r_ledger := Some "";
     r_written := None; r_dirty := true; r_blocked := ["main"];
     r_dirs := []; r_files := [] |}.


(** The first two statements of [get_entries]: the bootstrap when the status
    branch is not among the remote branches, then the read of the status
    file at the remote ref. *)
Definition read_status (core : Core) (remote_branches : list string) : prog string :=
  (if negb (PyStr.mem (status_branch core) remote_branches)
   then create_status_branch core else Ret tt) ;;
  show_file_from_origin (status_branch core) (status_file core).

(** The records of a status file: its lines, once the newlines around the
    text are stripped; none when nothing is left. *)
Definition stored_records (content : string) : list string :=
  let status_str := PyStr.strip PyStr.newline content in
  if PyStr.is_empty status_str then [] else PyStr.split PyStr.newline status_str.

Definition field_count (record : string) : nat :=
  List.length (PyStr.split ";" record).

(** The entry a record with three fields stands for. *)
Definition record_entry (record : string) : option Entry :=
  match PyStr.split ";" record with
  | [branch; folderstr; owner] => Some (branch, PyStr.split "," folderstr, owner)
  | _ => None
  end.

Definition has_malformed_record (content : string) : bool :=
  existsb (fun record => negb (Nat.eqb (field_count record) 3)) (stored_records content).

Definition in_remote (remote_branches : list string) (e : Entry) : bool :=
  PyStr.mem (entry_branch e) remote_branches.

Definition torn_text : string :=
  ("feature-x;partA;alice" ++ PyStr.nl ++ "feature-y;partB" ++ PyStr.nl)%string.

Definition pruned_text : string :=
  ("feature-x;partA;alice" ++ PyStr.nl ++ "feature-y;partB;bob" ++ PyStr.nl
   ++ "feature-z;partC,partD;" ++ PyStr.nl)%string.

(** A status branch whose file holds a record of two fields. *)
Definition torn_repo : Repo :=
  {| r_user := "alice"; r_active := "main"; r_local := ["main"];
     r_remote := ["origin/main"; "origin/status"; "origin/feature-x"; "origin/feature-y"];
     r_ledger := Some torn_text;
     r_written := None; r_dirty := false; r_blocked := [];
     r_dirs := []; r_files := [] |}.

(** A ledger with a record for a branch that was deleted on the remote. *)
Definition pruned_repo : Repo :=
  {| r_user := "alice"; r_active := "main"; r_local := ["main"];
     r_remote := ["origin/main"; "origin/status"; "origin/feature-x"; "origin/feature-z"];
     r_ledger := Some pruned_text;
     r_written := None; r_dirty := false; r_blocked := [];
     r_dirs := []; r_files := [] |}.


(** A configuration whose status branch is not called [status]. *)
Definition ledger_core : Core :=
  {| status_branch := "ledger"; status_file := "status.txt"; platform := LINUX |}.

(** No status branch on the remote; a local branch happens to be called
    [status], none is called [ledger]. *)
Definition stray_status_repo : Repo :=
  {| r_user := "alice"; r_active := "main"; r_local := ["main"; "status"];
     r_remote := ["origin/main"]; r_ledger := None;
     r_written := None; r_dirty := false; r_blocked := [];
     r_dirs := []; r_files := [] |}.

(** No status branch on the remote; a local branch is called [ledger]. *)
Definition local_ledger_repo : Repo :=
  {| r_user := "alice"; r_active := "main"; r_local := ["main"; "ledger"];
     r_remote := ["origin/main"]; r_ledger := None;
     r_written := None; r_dirty := false; r_blocked := [];
     r_dirs := []; r_files := [] |}.

(** The test of [create_branch] on a folder name, in words. *)
Definition reserved_name (folder : string) : Prop :=
  folder = "."
  \/ PyStr.contains "/" folder = true
  \/ PyStr.contains "\" folder = true
  \/ PyStr.contains "," folder = true
  \/ PyStr.contains ";" folder = true.

(** Two branches exist on both sides, and the ledger knows one of them. *)
Definition shared_repo : Repo :=
  {| r_user := "alice"; r_active := "main"; r_local := ["main"; "feature-y"];
     r_remote := ["origin/main"; "origin/status"; "origin/feature-x"];
     r_ledger := Some ("feature-x;partA;" ++ PyStr.nl)%string;
     r_written := None; r_dirty := false; r_blocked := [];
     r_dirs := []; r_files := [] |}.


(** The names of the directories [update_perms_using_entries] visits: the
    entries of [os.scandir(".")] that are directories and whose name does
    not start with a dot. *)
Definition top_level_dirs (listing : list (string * bool)) : list string :=
  map fst (filter (fun entry => negb (PyStr.startswith "." (fst entry)) && snd entry)
                  listing).

(** The permission a top-level directory gets. *)
Definition perm_for (owned : bool) (folders : list string) (dir : string) : Perm :=
  if owned && PyStr.mem dir folders then READ_WRITE else READ_ONLY.

(** The files [os.walk] found, as the paths given to [os.chmod]. *)
Definition walk_paths (walked : list (string * list string)) : list string :=
  flat_map (fun entry => map (path_join (fst entry)) (snd entry)) walked.

(** The calls of [set_folder_perms platform folder perm] when [os.walk]
    answers [walked]. *)
Definition folder_calls (platform : Platform) (folder : string) (perm : Perm)
    (walked : list (string * list string)) : list cmd :=
  Walk folder :: map (fun path => Chmod path (file_flags platform perm)) (walk_paths walked).

(** The calls that set every directory of [dirs] to its permission, one
    directory after the other, in the environment [w]. *)
Fixpoint perm_calls {world} (h : forall c : cmd, world -> resp c * world)
    (platform : Platform) (owned : bool) (folders : list string)
    (dirs : list string) (w : world) : list cmd :=
  match dirs with
  | [] => []
  | dir :: rest =>
      let calls := folder_calls platform dir (perm_for owned folders dir)
                                (fst (h (Walk dir) w)) in
      calls ++ perm_calls h platform owned folders rest (exec_all h calls w)
  end.

(** The number of visited directories that are folders of the entry. *)
Definition matched_folders (folders : list string) (dirs : list string) : nat :=
  List.length (filter (fun dir => PyStr.mem dir folders) dirs).

(** Alice owns [feature-x] with two folders, of which only [partA] is in the
    working tree; bob owns [feature-y]. *)
Definition perms_entries : list Entry :=
  [("feature-x", ["partA"; "partZ"], "alice"); ("feature-y", ["partB"], "bob")].




(** The trace [t] writes [ledger] to the status file, commits and pushes it. *)
Definition pushes_ledger (core : Core) (ledger : list Entry) (t : list cmd) : Prop :=
  exists before msg after,
    t = before
        ++ [WriteFile (status_file core) (encode_entries ledger);
            GitAdd [status_file core]; GitCommit msg; GitPush]
        ++ after.

(** The common shape of [checkin_branch] and [checkout_branch]. *)
Definition change_owner (core : Core) (branch : string) (want : OwnershipType)
    (new_owner : string -> string) (msg : string -> string) : prog unit :=
  '(entries, (_, folders, owner)) <- get_filtered_entries core branch ;;
  user_email <- get_user_name ;;
  lift (check_ownership user_email owner want) ;;
  let entries := entries ++ [(branch, folders, new_owner user_email)] in
  with_SaveBranch (save_entries core entries (msg user_email)) ;;
  working_branch <- get_working_branch ;;
  update_perms_using_entries (platform core) user_email entries working_branch.

(** The repository after alice created [feature-x] with two folders. *)
Definition created_repo : Repo :=
  {| r_user := "alice"; r_active := "main";
     r_local := ["main"; "status"; "feature-x"];
     r_remote := ["origin/HEAD"; "origin/main"; "origin/status"; "origin/feature-x"];
     r_ledger := Some ("feature-x;partA,partB;" ++ PyStr.nl)%string;
     r_written := None; r_dirty := false; r_blocked := [];
     r_dirs := [(".git", true); ("partA", true); ("partB", true); ("README", false)];
     r_files := [("partA", [("partA", ["a.sch"; "a.pcb"])]);
                 ("partB", [("partB", ["b.sch"])])] |}.

(** The same repository after alice checked [feature-x] out. *)
Definition claimed_repo : Repo :=
  {| r_user := "alice"; r_active := "main";
     r_local := ["main"; "status"; "feature-x"];
     r_remote := ["origin/HEAD"; "origin/main"; "origin/status"; "origin/feature-x"];
     r_ledger := Some ("feature-x;partA,partB;alice" ++ PyStr.nl)%string;
     r_written := None; r_dirty := false; r_blocked := [];
     r_dirs := [(".git", true); ("partA", true); ("partB", true); ("README", false)];
     r_files := [("partA", [("partA", ["a.sch"; "a.pcb"])]);
                 ("partB", [("partB", ["b.sch"])])] |}.


(* ================================================================= *)
(** ** Further definitions: the [commit] command, error sets and predicates *)

(** The name of the remote ref of a branch of [origin]. *)
Definition origin_ref (branch : string) : string := ("origin/" ++ branch)%string.

(** Branch names that [get_remote_branches] keeps: those that do not start
    with [HEAD]. *)
Definition listed_branch (branch : string) : bool :=
  negb (PyStr.startswith "HEAD" branch).

(** A text of newlines only. *)
Fixpoint blank (s : string) : bool :=
  match s with
  | EmptyString => true
  | String a s' => Ascii.eqb a PyStr.newline && blank s'
  end.

(** The revision [show_file_from_origin] asks [git show] for. *)
Definition status_rev (core : Core) : string :=
  ("origin/" ++ status_branch core ++ ":" ++ status_file core)%string.

(** A field of a decoded entry holds none of the characters the text was
    split on to get it. *)
Definition decoded_entry (e : Entry) : Prop :=
  entry_folders e <> []
  /\ PyStr.contains ";" (entry_branch e) = false
  /\ PyStr.contains PyStr.newline (entry_branch e) = false
  /\ Forall (fun folder => PyStr.contains "," folder = false
                           /\ PyStr.contains ";" folder = false
                           /\ PyStr.contains PyStr.newline folder = false)
            (entry_folders e)
  /\ PyStr.contains ";" (entry_owner e) = false
  /\ PyStr.contains PyStr.newline (entry_owner e) = false.

(** A remote with a branch in a name space and a branch whose name starts
    with [HEAD]. *)
Definition nested_repo : Repo :=
  {| r_user := "alice"; r_active := "main"; r_local := ["main"];
     r_remote := ["origin/HEAD"; "origin/main"; "origin/status";
                  "origin/feature/x"; "origin/HEAD-fix"];
     r_ledger := Some (PyStr.nl ++ PyStr.nl)%string;
     r_written := None; r_dirty := false; r_blocked := [];
     r_dirs := []; r_files := [] |}.

(** Every [raise] a program can reach, whatever the calls answer, raises an
    exception of [allowed]. *)
Fixpoint raises_in {A} (allowed : exn -> Prop) (p : prog A) : Prop :=
  match p with
  | Ret _ => True
  | Raise e => allowed e
  | Call c k => forall r, raises_in allowed (k r)
  end.

Definition any_of (l : list exn) : exn -> Prop := fun e => In e l.

(** What reading the remote branches and the ledger can raise. *)
Definition read_errors : list exn :=
  [IndexError; ValueError; Program DuplicateStatusBranchError; Program UnsavedError].

(** What looking the entry of a branch up can raise. *)
Definition lookup_errors : list exn :=
  read_errors ++ [Program MissingBranchError; Program UnassociatedBranchError].






(** Alice on her branch [feature-x], which she has checked out. *)
Definition working_repo : Repo :=
  {| r_user := "alice"; r_active := "feature-x";
     r_local := ["main"; "status"; "feature-x"];
     r_remote := ["origin/HEAD"; "origin/main"; "origin/status"; "origin/feature-x"];
     r_ledger := Some ("feature-x;partA,partC;alice" ++ PyStr.nl)%string;
     r_written := None; r_dirty := false; r_blocked := [];
     r_dirs := [(".git", true); ("partA", true); ("partB", true); ("README", false)];
     r_files := [("partA", [("partA", ["a.sch"; "a.pcb"])]);
                 ("partB", [("partB", ["b.sch"])])] |}.

(** The errors of [check_ownership]. *)
Definition ownership_errors : list exn :=
  [Program AlreadyOwnedError; Program ProtectedBranchError; Program UnownedBranchError].

(** The calls of [create_branch] from the moment it holds the ledger and
    the branch lists: under the guard, the ledger with the new entry is
    written, committed and pushed on the status branch, then [main] is
    checked out and pulled, and the branch is created there and pushed. *)
Definition create_branch_calls (core : Core) (branch : string) (entries : list Entry)
    : list cmd :=
  [ActiveBranch; GitStashU;
   GitCheckout (status_branch core); GitPull;
   WriteFile (status_file core) (encode_entries entries);
   GitAdd [status_file core]; GitCommit ("Add branch " ++ branch); GitPush;
   GitCheckout "main"; GitPull;
   CreateHeadCheckout branch; GitPushUpstream branch].


(** The [commit] command of [cli.py]. *)
Definition cli_commit (core : Core) (message : string) : prog unit :=
  run_operation_log_result (save_branch core message) ;;
  working_branch <- get_working_branch ;;
  call (PrintLine (color ("Successfully saved branch " ++ working_branch) [GREEN])).

(** What a command makes of the three ways its operation can end: [rest]
    is what the command does after an operation that returned. *)
Definition reports {world} (h : forall c : cmd, world -> resp c * world)
    (operation command rest : prog unit) (w : world) : Prop :=
  match run h operation w with
  | (Ok _, w1, t1) =>
      run h command w = (let '(r, w2, t2) := run h rest w1 in (r, w2, t1 ++ t2))
  | (Err (Program pe), w1, t1) =>
      exists message,
        error_msgs pe = Some message
        /\ run h command w
           = (Err (SystemExit 1), snd (h (PrintLine message) w1),
              t1 ++ [PrintLine message])
  | (Err e, w1, t1) => run h command w = (Err e, w1, t1)
  end.

(* ================================================================= *)
(** * Properties *)

(* ================================================================= *)
(** ** Strings *)

Module PyStrFacts.
Import PyStr.

Lemma append_assoc (a b c : string) : ((a ++ b) ++ c = a ++ (b ++ c))%string.
Proof. induction a as [|x a IH]; simpl; [reflexivity | now rewrite IH]. Qed.

Lemma append_empty_r (a : string) : (a ++ "" = a)%string.
Proof. induction a as [|x a IH]; simpl; [reflexivity | now rewrite IH]. Qed.

Lemma contains_app c (a b : string) :
  contains c (a ++ b) = contains c a || contains c b.
Proof.
  induction a as [|x a IH]; simpl; [reflexivity|].
  rewrite IH. now rewrite orb_assoc.
Qed.

Lemma contains_join c sep (l : list string) :
  contains c sep = false ->
  Forall (fun s => contains c s = false) l ->
  contains c (join sep l) = false.
Proof.
  intros Hsep Hl. induction Hl as [|x l Hx Hl IH]; [reflexivity|].
  destruct l as [|y l]; [exact Hx|].
  change (join sep (x :: y :: l)) with (x ++ sep ++ join sep (y :: l))%string.
  rewrite !contains_app, Hx, Hsep, IH. reflexivity.
Qed.

Lemma split_not_nil sep s : split sep s <> [].
Proof.
  destruct s as [|a s]; simpl; [discriminate|].
  destruct (Ascii.eqb a sep); [discriminate|].
  destruct (split sep s); discriminate.
Qed.

Lemma split_free sep s : contains sep s = false -> split sep s = [s].
Proof.
  induction s as [|a s IH]; simpl; [reflexivity|].
  intros H. apply orb_false_iff in H as [Ha Hs].
  rewrite Ha, (IH Hs). reflexivity.
Qed.

Lemma split_app_sep sep s rest :
  contains sep s = false ->
  split sep (s ++ String sep rest) = s :: split sep rest.
Proof.
  induction s as [|a s IH]; simpl.
  - intros _. now rewrite Ascii.eqb_refl.
  - intros H. apply orb_false_iff in H as [Ha Hs].
    rewrite Ha, (IH Hs). reflexivity.
Qed.

(** [sep.join(l).split(sep)] gives [l] back when [l] is not empty and no
    element contains [sep]. *)
Lemma split_join sep (l : list string) :
  l <> [] ->
  Forall (fun s => contains sep s = false) l ->
  split sep (join (String sep "") l) = l.
Proof.
  intros Hne Hl. induction Hl as [|x l Hx Hl IH]; [congruence|].
  destruct l as [|y l].
  - simpl. now apply split_free.
  - change (join (String sep "") (x :: y :: l))
      with (x ++ String sep (join (String sep "") (y :: l)))%string.
    rewrite (split_app_sep _ _ _ Hx), IH; [reflexivity | discriminate].
Qed.

Lemma lstrip_head c a s : Ascii.eqb a c = false -> lstrip c (String a s) = String a s.
Proof. intros H. simpl. now rewrite H. Qed.

Lemma rstrip_app_sep c s rest :
  contains c s = false ->
  rstrip c (s ++ String c rest) =
  match rstrip c rest with
  | EmptyString => s
  | r => (s ++ String c r)%string
  end.
Proof.
  induction s as [|a s IH]; simpl.
  - intros _. rewrite Ascii.eqb_refl. now destruct (rstrip c rest).
  - intros H. apply orb_false_iff in H as [Ha Hs].
    rewrite (IH Hs), Ha.
    destruct (rstrip c rest); destruct s; reflexivity.
Qed.

End PyStrFacts.

(* ================================================================= *)
(** ** The ledger codec *)

Module CodecFacts.
Import PyStr PyStrFacts.

Lemma encode_entry_record e : encode_entry e = (record_of e ++ nl)%string.
Proof.
  destruct e as [[b fs] o]. unfold encode_entry, record_of.
  now rewrite !append_assoc.
Qed.

Lemma avoids_delimiters_inv s :
  avoids_delimiters s = true ->
  contains ";" s = false /\ contains "," s = false /\ contains newline s = false.
Proof.
  unfold avoids_delimiters. rewrite !andb_true_iff, !negb_true_iff. tauto.
Qed.

Lemma forallb_avoids fs :
  forallb avoids_delimiters fs = true ->
  Forall (fun s => contains ";" s = false) fs
  /\ Forall (fun s => contains "," s = false) fs
  /\ Forall (fun s => contains newline s = false) fs.
Proof.
  rewrite forallb_forall. intros H. repeat split; apply Forall_forall; intros s Hs;
    apply H, avoids_delimiters_inv in Hs; tauto.
Qed.

Lemma entry_round_trips_inv remote b fs o :
  entry_round_trips remote (b, fs, o) = true ->
  split ";" (record_of (b, fs, o)) = [b; join "," fs; o]
  /\ split "," (join "," fs) = fs
  /\ mem b remote = true
  /\ contains newline (record_of (b, fs, o)) = false.
Proof.
  unfold entry_round_trips, entry_branch, entry_folders, entry_owner; cbn [fst snd].
  rewrite !andb_true_iff, !negb_true_iff.
  intros [[[[Hb Hfs] Hmem] Hne] [Ho1 Ho2]].
  apply avoids_delimiters_inv in Hb as (Hb1 & _ & Hb3).
  apply forallb_avoids in Hfs as (Hf1 & Hf2 & Hf3).
  assert (Hj1 : contains ";" (join "," fs) = false) by now apply contains_join.
  assert (Hj3 : contains newline (join "," fs) = false) by now apply contains_join.
  repeat split.
  - change (record_of (b, fs, o))
      with (b ++ String ";" (join "," fs ++ String ";" o))%string.
    rewrite (split_app_sep _ _ _ Hb1), (split_app_sep _ _ _ Hj1), (split_free _ _ Ho1).
    reflexivity.
  - apply split_join; [|exact Hf2]. destruct fs; [discriminate|discriminate].
  - exact Hmem.
  - unfold record_of. rewrite !contains_app, Hb3, Hj3, Ho2. reflexivity.
Qed.

Lemma record_not_empty e : is_empty (record_of e) = false.
Proof. destruct e as [[[|a b] fs] o]; reflexivity. Qed.

Lemma parse_records_encoded remote (ledger acc : list Entry) :
  forallb (entry_round_trips remote) ledger = true ->
  parse_records remote (map record_of ledger) acc = Ok (acc ++ ledger).
Proof.
  revert acc. induction ledger as [|[[b fs] o] ledger IH]; intros acc H; simpl.
  - now rewrite app_nil_r.
  - simpl in H. apply andb_true_iff in H as [He Hl].
    apply entry_round_trips_inv in He as (Hs & Hf & Hm & _).
    change (split ";" (b ++ String ";" (join "," fs ++ String ";" o)))
      with (split ";" (record_of (b, fs, o))).
    rewrite Hs, Hm, Hf, (IH _ Hl), <- app_assoc. reflexivity.
Qed.

(** The text of the file, as lines. *)
Lemma encode_entries_lines ledger :
  encode_entries ledger =
  fold_right (fun r written => (r ++ String newline written)%string) ""
             (map record_of ledger).
Proof.
  induction ledger as [|e ledger IH]; simpl; [reflexivity|].
  rewrite encode_entry_record, append_assoc, IH. reflexivity.
Qed.

Lemma rstrip_lines (records : list string) :
  Forall (fun r => contains newline r = false /\ is_empty r = false) records ->
  rstrip newline
    (fold_right (fun r written => (r ++ String newline written)%string) "" records)
  = join nl records.
Proof.
  induction 1 as [|r records [Hr Hne] Hrs IH]; [reflexivity|].
  simpl fold_right. rewrite (rstrip_app_sep _ _ _ Hr), IH.
  destruct records as [|r' records]; [reflexivity|].
  inversion Hrs as [|? ? [_ Hne'] _]; subst.
  assert (Hj : is_empty (join nl (r' :: records)) = false).
  { destruct records; [exact Hne'|]. destruct r'; [discriminate|reflexivity]. }
  change (join nl (r :: r' :: records))
    with (r ++ String newline (join nl (r' :: records)))%string.
  destruct (join nl (r' :: records)); [discriminate | reflexivity].
Qed.

Lemma lstrip_lines (records : list string) :
  Forall (fun r => contains newline r = false /\ is_empty r = false) records ->
  lstrip newline
    (fold_right (fun r written => (r ++ String newline written)%string) "" records)
  = fold_right (fun r written => (r ++ String newline written)%string) "" records.
Proof.
  destruct 1 as [|r records [Hr Hne] _]; [reflexivity|].
  destruct r as [|a r]; [discriminate|].
  simpl in Hr. apply orb_false_iff in Hr as [Ha _].
  simpl. now rewrite Ha.
Qed.

Lemma decode_encode remote ledger :
  forallb (entry_round_trips remote) ledger = true ->
  decode_status remote (encode_entries ledger) = Ok ledger.
Proof.
  intros H.
  assert (Hrec : Forall (fun r => contains newline r = false /\ is_empty r = false)
                        (map record_of ledger)).
  { apply Forall_forall. intros r Hr. apply in_map_iff in Hr as ([[b fs] o] & <- & Hin).
    rewrite forallb_forall in H. specialize (H _ Hin).
    apply entry_round_trips_inv in H as (_ & _ & _ & Hn).
    split; [exact Hn | apply record_not_empty]. }
  unfold decode_status, strip.
  rewrite encode_entries_lines, (lstrip_lines _ Hrec), (rstrip_lines _ Hrec).
  destruct ledger as [|e ledger]; [reflexivity|].
  assert (Hj : is_empty (join nl (map record_of (e :: ledger))) = false).
  { simpl map. destruct (map record_of ledger).
    - apply record_not_empty.
    - pose proof (record_not_empty e). simpl.
      destruct (record_of e); [discriminate|reflexivity]. }
  rewrite Hj. unfold nl.
  rewrite split_join.
  - now apply (parse_records_encoded remote (e :: ledger) []).
  - discriminate.
  - eapply Forall_impl; [|exact Hrec]. now intros r [Hr _].
Qed.

End CodecFacts.

Lemma round_trip_conditions remote ledger :
  names_avoid_delimiters ledger = true ->
  branches_in remote ledger = true ->
  folders_nonempty ledger = true ->
  owners_avoid_separators ledger = true ->
  forallb (entry_round_trips remote) ledger = true.
Proof.
  unfold names_avoid_delimiters, branches_in, folders_nonempty, owners_avoid_separators.
  rewrite !forallb_forall. intros H1 H2 H3 H4 e He.
  unfold entry_round_trips.
  rewrite (H1 e He), (H2 e He), (H3 e He), (H4 e He). reflexivity.
Qed.

(** C3, as stated, fails in two ways: an entry with no folder comes back
    with the single folder name [""], and an owner containing [;] makes the
    record unreadable. Both ledgers meet the conditions of the claim. *)
Lemma round_trip_fails_without_folders_or_with_separator_in_owner :
  (names_avoid_delimiters [("b", [], "")] = true
   /\ branches_in ["b"] [("b", [], "")] = true
   /\ decode_status ["b"] (encode_entries [("b", [], "")]) = Ok [("b", [""], "")])
  /\ (names_avoid_delimiters [("b", ["f"], "a;c")] = true
      /\ branches_in ["b"] [("b", ["f"], "a;c")] = true
      /\ decode_status ["b"] (encode_entries [("b", ["f"], "a;c")]) = Err ValueError).
Proof. repeat split. Qed.

(** C3 (amended): for every ledger whose branch and folder names avoid the
    delimiter characters, whose branches are all in the remote branch list,
    whose entries each have at least one folder and whose owners contain
    neither [;] nor a newline, decoding the encoded ledger gives the ledger
    back. *)
Theorem decode_encode_round_trip (remote_branches : list string) (ledger : list Entry) :
  names_avoid_delimiters ledger = true ->
  branches_in remote_branches ledger = true ->
  folders_nonempty ledger = true ->
  owners_avoid_separators ledger = true ->
  decode_status remote_branches (encode_entries ledger) = Ok ledger.
Proof.
  intros H1 H2 H3 H4.
  apply CodecFacts.decode_encode, round_trip_conditions; assumption.
Qed.

Lemma decode_encode_round_trip_witness :
  decode_status ["feature-x"; "feature-y"; "main"]
    (encode_entries [("feature-x", ["partA"; "partB"], "");
                     ("feature-y", ["partC"], "alice, the owner")])
  = Ok [("feature-x", ["partA"; "partB"], "");
        ("feature-y", ["partC"], "alice, the owner")].
Proof.
  apply (decode_encode_round_trip ["feature-x"; "feature-y"; "main"]
           [("feature-x", ["partA"; "partB"], "");
            ("feature-y", ["partC"], "alice, the owner")]);
    reflexivity.
Defined.

(* ================================================================= *)
(** ** Running programs *)

Section RunFacts.
Context {world : Type} (h : forall c : cmd, world -> resp c * world).

Lemma run_bind {A B} (m : prog A) (f : A -> prog B) (w : world) :
  run h (bind m f) w =
  match run h m w with
  | (Ok a, w1, t1) => let '(r, w2, t2) := run h (f a) w1 in (r, w2, t1 ++ t2)
  | (Err e, w1, t1) => (Err e, w1, t1)
  end.
Proof.
  revert w. induction m as [a|e|c k IH]; intros w; simpl.
  - now destruct (run h (f a) w) as [[r w2] t2].
  - reflexivity.
  - destruct (h c w) as [r w1]. rewrite IH.
    destruct (run h (k r) w1) as [[[a|e] w2] t1]; [|reflexivity].
    now destruct (run h (f a) w2) as [[r' w3] t2].
Qed.

Lemma run_call (c : cmd) (w : world) :
  run h (call c) w = (Ok (fst (h c w)), snd (h c w), [c]).
Proof. unfold call. simpl. now destruct (h c w). Qed.

Lemma run_finally {A} (body : prog A) (fin : prog unit) (w : world) :
  run h (finally body fin) w =
  let '(r, w1, t1) := run h body w in
  let '(rf, w2, t2) := run h fin w1 in
  (match rf with Ok _ => r | Err e => Err e end, w2, t1 ++ t2).
Proof.
  revert w. induction body as [a|e|c k IH]; intros w; simpl.
  - rewrite run_bind.
    destruct (run h fin w) as [[[[]|e] w2] t2]; simpl; now rewrite ?app_nil_r.
  - rewrite run_bind.
    destruct (run h fin w) as [[[[]|e'] w2] t2]; simpl; now rewrite ?app_nil_r.
  - destruct (h c w) as [r w1]. rewrite IH.
    destruct (run h (k r) w1) as [[r1 w2] t1].
    now destruct (run h fin w2) as [[rf w3] t2].
Qed.

Lemma run_try_except {A} (body : prog A) (handler : exn -> option (prog A)) w :
  run h (try_except body handler) w =
  match run h body w with
  | (Ok a, w1, t1) => (Ok a, w1, t1)
  | (Err e, w1, t1) =>
      match handler e with
      | Some hd => let '(r, w2, t2) := run h hd w1 in (r, w2, t1 ++ t2)
      | None => (Err e, w1, t1)
      end
  end.
Proof.
  revert w. induction body as [a|e|c k IH]; intros w; simpl.
  - reflexivity.
  - destruct (handler e) as [hd|]; [|reflexivity].
    now destruct (run h hd w) as [[r w2] t2].
  - destruct (h c w) as [r w1]. rewrite IH.
    destruct (run h (k r) w1) as [[[a|e] w2] t1]; [reflexivity|].
    destruct (handler e) as [hd|]; [|reflexivity].
    now destruct (run h hd w2) as [[r' w3] t2].
Qed.

Lemma run_lift {A} (r : result A) w : run h (lift r) w = (r, w, []).
Proof. now destruct r. Qed.

Lemma run_to_branch branch w :
  run h (to_branch branch) w =
  ((if fst (h (GitCheckout branch) w) then Ok tt else Err (Program UnsavedError)),
   snd (h (GitCheckout branch) w), [GitCheckout branch]).
Proof.
  unfold to_branch. simpl. destruct (h (GitCheckout branch) w) as [[|] w1]; reflexivity.
Qed.

Lemma run_SaveBranch_enter w :
  run h SaveBranch_enter w =
  (Ok {| sb_branch := fst (h ActiveBranch w);
         sb_stash := negb (String.eqb (fst (h GitStashU (snd (h ActiveBranch w))))
                                      "No local changes to save") |},
   snd (h GitStashU (snd (h ActiveBranch w))),
   [ActiveBranch; GitStashU]).
Proof.
  unfold SaveBranch_enter, get_working_branch, stash_untracked. simpl.
  destruct (h ActiveBranch w) as [b w1]. simpl.
  destruct (h GitStashU w1) as [s w2]. reflexivity.
Qed.

Lemma run_SaveBranch_exit self w :
  run h (SaveBranch_exit self) w =
  let ok := fst (h (GitCheckout (sb_branch self)) w) in
  let w1 := snd (h (GitCheckout (sb_branch self)) w) in
  if ok then
    if sb_stash self
    then (Ok tt, snd (h GitStashPop w1), [GitCheckout (sb_branch self); GitStashPop])
    else (Ok tt, w1, [GitCheckout (sb_branch self)])
  else (Err (Program UnsavedError), w1, [GitCheckout (sb_branch self)]).
Proof.
  unfold SaveBranch_exit. rewrite run_bind, run_to_branch.
  destruct (h (GitCheckout (sb_branch self)) w) as [[|] w1]; simpl; [|reflexivity].
  destruct (sb_stash self); simpl; [|reflexivity].
  unfold stash_pop. now destruct (h GitStashPop w1) as [[] w2].
Qed.

Lemma run_with_SaveBranch {A} (body : prog A) (w : world) :
  let branch := fst (h ActiveBranch w) in
  let w1 := snd (h ActiveBranch w) in
  let stashed := negb (String.eqb (fst (h GitStashU w1)) "No local changes to save") in
  let w2 := snd (h GitStashU w1) in
  let res := fst (fst (run h body w2)) in
  let w3 := snd (fst (run h body w2)) in
  let tb := snd (run h body w2) in
  let ok := fst (h (GitCheckout branch) w3) in
  let w4 := snd (h (GitCheckout branch) w3) in
  run h (with_SaveBranch body) w =
  if ok then
    (res, (if stashed then snd (h GitStashPop w4) else w4),
     [ActiveBranch; GitStashU] ++ tb
       ++ GitCheckout branch :: (if stashed then [GitStashPop] else []))
  else
    (Err (Program UnsavedError), w4,
     [ActiveBranch; GitStashU] ++ tb ++ [GitCheckout branch]).
Proof.
  cbv zeta. unfold with_SaveBranch, with_.
  rewrite run_bind, run_SaveBranch_enter, run_finally.
  destruct (run h body _) as [[r w3] tb].
  rewrite run_SaveBranch_exit. cbn [sb_branch sb_stash fst snd].
  destruct (fst (h (GitCheckout _) w3)); [|reflexivity].
  destruct (negb _); reflexivity.
Qed.

Lemma final_exec_all {A} (p : prog A) (w : world) :
  final h p w = exec_all h (trace h p w) w.
Proof.
  unfold final, trace. revert w. induction p as [a|e|c k IH]; intros w; simpl; try reflexivity.
  destruct (h c w) as [r w1] eqn:E. specialize (IH r w1).
  destruct (run h (k r) w1) as [[res w2] t]. simpl in *. now rewrite E.
Qed.

Lemma run_bind_Ok {A B} (m : prog A) (f : A -> prog B) w b w' t :
  run h (bind m f) w = (Ok b, w', t) ->
  exists a w1 t1 t2,
    run h m w = (Ok a, w1, t1) /\ run h (f a) w1 = (Ok b, w', t2) /\ t = t1 ++ t2.
Proof.
  rewrite run_bind. destruct (run h m w) as [[[a|e] w1] t1]; [|discriminate].
  destruct (run h (f a) w1) as [[r w2] t2] eqn:E. intros H; inversion H; subst.
  now exists a, w1, t1, t2.
Qed.

Lemma run_finally_Ok {A} (body : prog A) (fin : prog unit) w a w' t :
  run h (finally body fin) w = (Ok a, w', t) ->
  exists w1 t1 t2,
    run h body w = (Ok a, w1, t1) /\ run h fin w1 = (Ok tt, w', t2) /\ t = t1 ++ t2.
Proof.
  rewrite run_finally. destruct (run h body w) as [[r w1] t1].
  destruct (run h fin w1) as [[[[]|e] w2] t2] eqn:E; intros H; inversion H; subst.
  now exists w1, t1, t2.
Qed.

End RunFacts.

Section CoreRun.
Context {world : Type} (h : forall c : cmd, world -> resp c * world).

Lemma run_get_local_branches w :
  run h get_local_branches w = (Ok (fst (h Branches w)), snd (h Branches w), [Branches]).
Proof. unfold get_local_branches, call. simpl. now destruct (h Branches w). Qed.

Lemma run_get_user_name w :
  run h get_user_name w
  = (Ok (fst (h ConfigUserName w)), snd (h ConfigUserName w), [ConfigUserName]).
Proof. unfold get_user_name, call. simpl. now destruct (h ConfigUserName w). Qed.

Lemma run_get_working_branch w :
  run h get_working_branch w
  = (Ok (fst (h ActiveBranch w)), snd (h ActiveBranch w), [ActiveBranch]).
Proof. unfold get_working_branch, call. simpl. now destruct (h ActiveBranch w). Qed.

Lemma exec_all_app t1 t2 (w : world) :
  exec_all h (t1 ++ t2) w = exec_all h t2 (exec_all h t1 w).
Proof. unfold exec_all. apply fold_left_app. Qed.

Lemma run_Call {A} c (k : resp c -> prog A) w :
  run h (Call c k) w =
  let '(res, w2, t) := run h (k (fst (h c w))) (snd (h c w)) in (res, w2, c :: t).
Proof. simpl. now destruct (h c w). Qed.

End CoreRun.


(* ================================================================= *)
(** ** [check_ownership] *)

Lemma check_ownership_unclaimed identity owner :
  check_ownership identity owner UNCLAIMED =
  if String.eqb owner identity then Err (Program AlreadyOwnedError)
  else if String.eqb owner "" then Ok tt
  else Err (Program ProtectedBranchError).
Proof.
  unfold check_ownership.
  destruct (String.eqb owner identity); [reflexivity|].
  now destruct (String.eqb owner "").
Qed.

Lemma check_ownership_claimed identity owner :
  check_ownership identity owner CLAIMED =
  if String.eqb owner "" then Err (Program UnownedBranchError)
  else if String.eqb owner identity then Ok tt
  else Err (Program ProtectedBranchError).
Proof.
  unfold check_ownership.
  destruct (String.eqb owner ""); [reflexivity|].
  now destruct (String.eqb owner identity).
Qed.

(** C1, as stated, fails for the empty identity: an empty owner then equals
    the identity, so UNCLAIMED raises AlreadyOwned where the claim also
    demands success, and CLAIMED raises Unowned where the claim also demands
    success. *)
Lemma check_ownership_empty_identity :
  check_ownership "" "" UNCLAIMED = Err (Program AlreadyOwnedError)
  /\ check_ownership "" "" CLAIMED = Err (Program UnownedBranchError)
  /\ ~ ownership_cases_independent "" "".
Proof.
  repeat split. intros (_ & _ & H & _). specialize (H eq_refl). discriminate H.
Qed.

(** C1 (amended): for every identity and owner, with UNCLAIMED the check
    raises AlreadyOwned when the owner equals the identity, Protected when
    the owner is a different non-empty string, and succeeds when the owner is
    empty and differs from the identity; with CLAIMED it raises Unowned when
    the owner is empty, Protected when the owner is non-empty and differs
    from the identity, and succeeds when the owner equals the identity and is
    not empty. *)
Theorem check_ownership_cases (identity owner : string) :
  (owner = identity ->
   check_ownership identity owner UNCLAIMED = Err (Program AlreadyOwnedError))
  /\ (owner <> identity -> owner <> "" ->
      check_ownership identity owner UNCLAIMED = Err (Program ProtectedBranchError))
  /\ (owner = "" -> owner <> identity ->
      check_ownership identity owner UNCLAIMED = Ok tt)
  /\ (owner = "" ->
      check_ownership identity owner CLAIMED = Err (Program UnownedBranchError))
  /\ (owner <> "" -> owner <> identity ->
      check_ownership identity owner CLAIMED = Err (Program ProtectedBranchError))
  /\ (owner = identity -> owner <> "" ->
      check_ownership identity owner CLAIMED = Ok tt).
Proof.
  rewrite check_ownership_unclaimed, check_ownership_claimed.
  destruct (String.eqb_spec owner identity) as [E|N];
    destruct (String.eqb_spec owner "") as [E'|N'];
    repeat split; intros; congruence.
Qed.

(** For a non-empty identity the six cases do not overlap, and each holds as
    C1 words it. *)
Lemma check_ownership_nonempty_identity (identity owner : string) :
  identity <> "" -> ownership_cases_independent identity owner.
Proof.
  intros Hid. unfold ownership_cases_independent.
  rewrite check_ownership_unclaimed, check_ownership_claimed.
  destruct (String.eqb_spec owner identity) as [E|N];
    destruct (String.eqb_spec owner "") as [E'|N'];
    repeat split; intros; congruence.
Qed.

(* ================================================================= *)
(** ** The branch guard [SaveBranch] *)

(** C6, as stated, fails when the checkout on exit is refused: the stash on
    entry saved the local edits, the guard raises UnsavedError after the
    refused checkout, and no stash pop is issued; the edits stay stashed. *)
Lemma SaveBranch_no_pop_after_failed_checkout :
  fst (git GitStashU stuck_repo) <> "No local changes to save"
  /\ run git (with_SaveBranch (save_entries demo_core [] "Checkin b by alice")) stuck_repo
     = (Err (Program UnsavedError),
        final git (with_SaveBranch (save_entries demo_core [] "Checkin b by alice")) stuck_repo,
        [ActiveBranch; GitStashU; GitCheckout "status"; GitPull;
         WriteFile "status.txt" ""; GitAdd ["status.txt"];
         GitCommit "Checkin b by alice"; GitPush; GitCheckout "main"])
  /\ r_dirty (final git (with_SaveBranch (save_entries demo_core [] "Checkin b by alice"))
                stuck_repo) = false
  /\ r_active (final git (with_SaveBranch (save_entries demo_core [] "Checkin b by alice"))
                 stuck_repo) = "status".
Proof. repeat split. discriminate. Qed.

Section Guard.
Context {world : Type} (h : forall c : cmd, world -> resp c * world).

(** C6 (amended): whatever the wrapped operation does, return or raise, the
    guard then asks git to check out the branch recorded on entry; when
    that checkout succeeds, it pops the stash exactly when the stash on
    entry reported that something was stashed, and the result or exception
    of the operation is passed on; when that checkout fails, the guard
    raises UnsavedError instead and does not pop the stash. *)
Theorem SaveBranch_exit_paths {A} (body : prog A) (w : world) :
  let branch := fst (h ActiveBranch w) in
  let w1 := snd (h ActiveBranch w) in
  let stashed := negb (String.eqb (fst (h GitStashU w1)) "No local changes to save") in
  let w2 := snd (h GitStashU w1) in
  let res := outcome h body w2 in
  let w3 := final h body w2 in
  exists tail,
    trace h (with_SaveBranch body) w
      = [ActiveBranch; GitStashU] ++ trace h body w2 ++ GitCheckout branch :: tail
    /\ (fst (h (GitCheckout branch) w3) = true ->
        tail = (if stashed then [GitStashPop] else [])
        /\ outcome h (with_SaveBranch body) w = res)
    /\ (fst (h (GitCheckout branch) w3) = false ->
        tail = []
        /\ outcome h (with_SaveBranch body) w = Err (Program UnsavedError)).
Proof.
  cbv zeta. unfold outcome, trace, final.
  rewrite (run_with_SaveBranch h body w). cbv zeta.
  destruct (fst (h (GitCheckout _) _)); eexists; cbn [fst snd];
    (split; [reflexivity|]); split; intros; try discriminate; split; reflexivity.
Qed.

End Guard.

(* ================================================================= *)
(** ** Reading the ledger: [get_entries], [branch_status] and the boundary *)

Module LedgerRead.
Import PyStr.

Lemma mem_In x l : mem x l = true <-> In x l.
Proof.
  unfold mem. rewrite existsb_exists. split.
  - intros (y & Hy & E). apply String.eqb_eq in E. now subst.
  - intros H. exists x. split; [exact H | apply String.eqb_refl].
Qed.

Lemma parse_records_Ok remote records acc entries :
  parse_records remote records acc = Ok entries ->
  exists stored,
    map record_entry records = map Some stored
    /\ entries = acc ++ filter (in_remote remote) stored.
Proof.
  revert acc. induction records as [|r records IH]; intros acc H; simpl in H.
  - exists []. inversion H. now rewrite app_nil_r.
  - destruct (split ";" r) as [|b [|f [|o [|x l]]]] eqn:E; try discriminate.
    apply IH in H as (stored & Hs & He).
    exists ((b, split "," f, o) :: stored). split.
    + cbn [map]. f_equal; [unfold record_entry; now rewrite E | exact Hs].
    + subst entries. cbn [filter]. unfold in_remote at 2, entry_branch. cbn [fst].
      destruct (mem b remote); [now rewrite <- app_assoc | reflexivity].
Qed.

Lemma parse_records_malformed remote records acc :
  existsb (fun record => negb (Nat.eqb (field_count record) 3)) records = true ->
  parse_records remote records acc = Err ValueError.
Proof.
  revert acc. induction records as [|r records IH]; intros acc H; simpl in H; [discriminate|].
  simpl. unfold field_count in H at 1.
  destruct (split ";" r) as [|b [|f [|o [|x l]]]]; try reflexivity.
  simpl in H. now apply IH.
Qed.

Lemma decode_status_records remote content :
  decode_status remote content = parse_records remote (stored_records content) [].
Proof.
  unfold decode_status, stored_records.
  now destruct (is_empty (strip newline content)).
Qed.

Lemma decode_status_Ok remote content entries :
  decode_status remote content = Ok entries ->
  exists stored,
    map record_entry (stored_records content) = map Some stored
    /\ entries = filter (in_remote remote) stored.
Proof. rewrite decode_status_records. apply parse_records_Ok. Qed.

Lemma decode_status_malformed remote content :
  has_malformed_record content = true ->
  decode_status remote content = Err ValueError.
Proof. rewrite decode_status_records. apply parse_records_malformed. Qed.

Lemma filter_in_remote remote stored :
  Forall (fun e => In (entry_branch e) remote) (filter (in_remote remote) stored).
Proof.
  apply Forall_forall. intros e He. apply filter_In in He as [_ He].
  now apply mem_In.
Qed.

End LedgerRead.

Section LedgerReadRun.
Context {world : Type} (h : forall c : cmd, world -> resp c * world).

Lemma run_get_entries core remote w :
  run h (get_entries core remote) w =
  match run h (read_status core remote) w with
  | (Ok content, w1, t1) => (decode_status remote content, w1, t1)
  | (Err e, w1, t1) => (Err e, w1, t1)
  end.
Proof.
  unfold get_entries, read_status. rewrite !run_bind.
  destruct (run h (if negb _ then _ else _) w) as [[[[]|e] w0] t0]; [|reflexivity].
  rewrite run_bind.
  destruct (run h (show_file_from_origin _ _) w0) as [[[content|e] w1] t1]; [|reflexivity].
  rewrite run_lift. now rewrite !app_nil_r.
Qed.

Lemma run_branch_status core w :
  run h (branch_status core) w =
  match run h get_remote_branches w with
  | (Ok remote, w0, t0) =>
      let '(r, w1, t1) := run h (get_entries core remote) w0 in (r, w1, t0 ++ t1)
  | (Err e, w0, t0) => (Err e, w0, t0)
  end.
Proof. unfold branch_status. now rewrite run_bind. Qed.

Lemma run_operation_log_result_other {A} (func : prog A) w e w' t :
  run h func w = (Err e, w', t) ->
  is_ProgramError e = false ->
  run h (run_operation_log_result func) w = (Err e, w', t).
Proof.
  intros H He. unfold run_operation_log_result. rewrite run_try_except, H.
  now destruct e.
Qed.

Lemma run_operation_log_result_ProgramError {A} (func : prog A) w pe w' t :
  run h func w = (Err (Program pe), w', t) ->
  exists message,
    error_msgs pe = Some message
    /\ run h (run_operation_log_result func) w
       = (Err (SystemExit 1), snd (h (PrintLine message) w'), t ++ [PrintLine message]).
Proof.
  intros H. unfold run_operation_log_result. rewrite run_try_except, H.
  destruct (error_msgs pe) as [m|] eqn:E; [|destruct pe; discriminate].
  exists m. split; [reflexivity|]. simpl.
  now destruct (h (PrintLine m) w') as [[] w2].
Qed.

Lemma run_operation_log_result_Ok {A} (func : prog A) w a w' t :
  run h func w = (Ok a, w', t) ->
  run h (run_operation_log_result func) w = (Ok a, w', t).
Proof.
  intros H. unfold run_operation_log_result. now rewrite run_try_except, H.
Qed.

(** C8: every entry [get_entries] returns has its branch in the remote
    branch list passed to it: the result is the list of the records of the
    status file, in file order, without those whose branch is not in the
    list; the same holds of [branch_status] and the list that
    [get_remote_branches] returned. *)
Theorem get_entries_pruned core remote w entries w' t :
  (run h (get_entries core remote) w = (Ok entries, w', t) ->
   exists content stored,
     run h (read_status core remote) w = (Ok content, w', t)
     /\ map record_entry (stored_records content) = map Some stored
     /\ entries = filter (in_remote remote) stored
     /\ Forall (fun e => In (entry_branch e) remote) entries)
  /\ (run h (branch_status core) w = (Ok entries, w', t) ->
      exists remote' w0 t0 t1,
        run h get_remote_branches w = (Ok remote', w0, t0)
        /\ run h (get_entries core remote') w0 = (Ok entries, w', t1)
        /\ t = t0 ++ t1
        /\ Forall (fun e => In (entry_branch e) remote') entries).
Proof.
  assert (G : forall remote w entries w' t,
    run h (get_entries core remote) w = (Ok entries, w', t) ->
    exists content stored,
     run h (read_status core remote) w = (Ok content, w', t)
     /\ map record_entry (stored_records content) = map Some stored
     /\ entries = filter (in_remote remote) stored
     /\ Forall (fun e => In (entry_branch e) remote) entries).
  { clear. intros remote w entries w' t H. rewrite run_get_entries in H.
    destruct (run h (read_status core remote) w) as [[[content|e] w1] t1]; [|discriminate].
    inversion H as [[Hd Hw Ht]]. subst w1 t1.
    apply LedgerRead.decode_status_Ok in Hd as (stored & Hs & He).
    exists content, stored. repeat split; try assumption.
    subst entries. apply LedgerRead.filter_in_remote. }
  split; [apply G|].
  intros H. rewrite run_branch_status in H.
  destruct (run h get_remote_branches w) as [[[remote'|e] w0] t0]; [|discriminate].
  destruct (run h (get_entries core remote') w0) as [[r w1] t1] eqn:E.
  inversion H; subst. exists remote', w0, t0, t1.
  split; [reflexivity|]. split; [exact E|]. split; [reflexivity|].
  apply G in E as (_ & _ & _ & _ & _ & F). exact F.
Qed.

(** C9 (amended): when the status file read from the remote holds a record
    whose number of [;]-separated fields is not 3, reading the ledger raises
    Python's ValueError. ValueError is none of the typed errors
    ([ProgramError]), so [run_operation_log_result] does not catch it: no
    message is printed, [sys.exit] is not called, and the ValueError leaves
    the boundary as it entered. *)
Theorem malformed_record_raises_ValueError core remote w content w1 t1 :
  run h (read_status core remote) w = (Ok content, w1, t1) ->
  has_malformed_record content = true ->
  decode_status remote content = Err ValueError
  /\ is_ProgramError ValueError = false
  /\ run h (get_entries core remote) w = (Err ValueError, w1, t1)
  /\ run h (run_operation_log_result (get_entries core remote)) w
     = (Err ValueError, w1, t1).
Proof.
  intros Hr Hm. pose proof (LedgerRead.decode_status_malformed remote _ Hm) as Hd.
  assert (Hg : run h (get_entries core remote) w = (Err ValueError, w1, t1)).
  { now rewrite run_get_entries, Hr, Hd. }
  repeat split; try assumption.
  now apply run_operation_log_result_other.
Qed.

End LedgerReadRun.

(** C9, as stated, fails: with a record of two fields in the status file,
    the [status] command ends in a ValueError, which is no [ProgramError];
    nothing is printed and the exit is not [sys.exit(1)]. *)
Lemma malformed_record_escapes_boundary :
  has_malformed_record torn_text = true
  /\ run git (cli_status_entries demo_core) torn_repo
     = (Err ValueError, torn_repo,
        [GitRemoteUpdate; RemoteRefs; GitFetch "status"; GitShow "origin/status:status.txt"])
  /\ is_ProgramError ValueError = false
  /\ filter is_PrintLine (trace git (cli_status_entries demo_core) torn_repo) = [].
Proof. repeat split. Qed.

Lemma malformed_record_raises_ValueError_witness :
  run git (run_operation_log_result
             (get_entries demo_core ["main"; "status"; "feature-x"; "feature-y"]))
      torn_repo
  = (Err ValueError, torn_repo, [GitFetch "status"; GitShow "origin/status:status.txt"]).
Proof.
  apply (malformed_record_raises_ValueError git demo_core
           ["main"; "status"; "feature-x"; "feature-y"] torn_repo
           torn_text
           torn_repo [GitFetch "status"; GitShow "origin/status:status.txt"]);
    reflexivity.
Defined.

Lemma get_entries_pruned_witness :
  exists content stored,
    run git (read_status demo_core ["main"; "status"; "feature-x"; "feature-z"]) pruned_repo
      = (Ok content, pruned_repo, [GitFetch "status"; GitShow "origin/status:status.txt"])
    /\ map record_entry (stored_records content) = map Some stored
    /\ [("feature-x", ["partA"], "alice"); ("feature-z", ["partC"; "partD"], "")]
       = filter (in_remote ["main"; "status"; "feature-x"; "feature-z"]) stored
    /\ Forall (fun e => In (entry_branch e) ["main"; "status"; "feature-x"; "feature-z"])
         [("feature-x", ["partA"], "alice"); ("feature-z", ["partC"; "partD"], "")].
Proof.
  apply (proj1 (get_entries_pruned git demo_core
                  ["main"; "status"; "feature-x"; "feature-z"] pruned_repo
                  [("feature-x", ["partA"], "alice"); ("feature-z", ["partC"; "partD"], "")]
                  pruned_repo [GitFetch "status"; GitShow "origin/status:status.txt"])).
  reflexivity.
Defined.

(* ================================================================= *)
(** ** The bootstrap [create_status_branch] *)

Section Bootstrap.
Context {world : Type} (h : forall c : cmd, world -> resp c * world).

Lemma run_create_status_branch core w :
  run h (create_status_branch core) w =
  if PyStr.mem "status" (fst (h Branches w))
  then (Err (Program DuplicateStatusBranchError), snd (h Branches w), [Branches])
  else
    let '(r, w', t) :=
      run h (with_SaveBranch (
               create_orphan_branch (status_branch core) ;;
               call (WriteFile (status_file core) "") ;;
               add [status_file core] ;;
               commit "Add status file" ;;
               push_upstream_origin (status_branch core)))
          (snd (h Branches w)) in
    (r, w', Branches :: t).
Proof.
  unfold create_status_branch.
  rewrite run_bind, run_get_local_branches. cbn [fst snd].
  destruct (PyStr.mem "status" (fst (h Branches w))); [reflexivity|].
  now destruct (run h (with_SaveBranch _) _) as [[r w'] t].
Qed.

Lemma outcome_status_branch_body core w :
  outcome h (create_orphan_branch (status_branch core) ;;
             call (WriteFile (status_file core) "") ;;
             add [status_file core] ;;
             commit "Add status file" ;;
             push_upstream_origin (status_branch core)) w = Ok tt.
Proof.
  unfold outcome. simpl.
  repeat match goal with
         | |- context [h ?c ?w] => destruct (h c w) as [[] ?]; simpl
         end.
  reflexivity.
Qed.

(** What the bootstrap tests is the literal name [status], whatever the
    configured name of the status branch is. *)
Lemma create_status_branch_DuplicateStatus core w :
  outcome h (create_status_branch core) w = Err (Program DuplicateStatusBranchError)
  <-> PyStr.mem "status" (fst (h Branches w)) = true.
Proof.
  unfold outcome at 1. rewrite run_create_status_branch.
  destruct (PyStr.mem "status" (fst (h Branches w))); [now split|].
  rewrite (run_with_SaveBranch h). cbv zeta.
  fold (outcome h (create_orphan_branch (status_branch core) ;;
             call (WriteFile (status_file core) "") ;;
             add [status_file core] ;;
             commit "Add status file" ;;
             push_upstream_origin (status_branch core))
          (snd (h GitStashU (snd (h ActiveBranch (snd (h Branches w))))))).
  rewrite outcome_status_branch_body.
  destruct (fst (h (GitCheckout _) _)); cbn [fst]; split; discriminate.
Qed.

End Bootstrap.

(** C5: the code tests for a local branch called [status], not for one with
    the configured name. With the status branch configured as [ledger]: a
    local branch [status] makes the bootstrap raise DuplicateStatus although
    no local branch is called [ledger]; and a local branch [ledger] does not
    raise it, the bootstrap goes on to [git checkout --orphan ledger]. *)
Lemma create_status_branch_tests_literal_status :
  (PyStr.mem (status_branch ledger_core) (r_local stray_status_repo) = false
   /\ run git (create_status_branch ledger_core) stray_status_repo
      = (Err (Program DuplicateStatusBranchError), stray_status_repo, [Branches]))
  /\ (PyStr.mem (status_branch ledger_core) (r_local local_ledger_repo) = true
      /\ outcome git (create_status_branch ledger_core) local_ledger_repo
         <> Err (Program DuplicateStatusBranchError)
      /\ firstn 4 (trace git (create_status_branch ledger_core) local_ledger_repo)
         = [Branches; ActiveBranch; GitStashU; GitCheckoutOrphan "ledger"]).
Proof. repeat split. discriminate. Qed.


(* ================================================================= *)
(** ** [create_branch]: the order of the tests *)

Lemma invalid_folder_reserved folder :
  invalid_folder folder = true <-> reserved_name folder.
Proof.
  unfold invalid_folder, reserved_name.
  rewrite !orb_true_iff, String.eqb_eq. tauto.
Qed.

Lemma validate_folders_ok folders :
  existsb invalid_folder folders = false ->
  for_each folders (fun folder =>
    if invalid_folder folder then Raise (Program InvalidFolderError) else Ret tt)
  = Ret tt.
Proof.
  induction folders as [|f folders IH]; [reflexivity|].
  simpl. intros H. apply orb_false_iff in H as [Hf Hr].
  rewrite Hf. simpl. now apply IH.
Qed.

Lemma validate_folders_invalid folders :
  existsb invalid_folder folders = true ->
  for_each folders (fun folder =>
    if invalid_folder folder then Raise (Program InvalidFolderError) else Ret tt)
  = Raise (Program InvalidFolderError).
Proof.
  induction folders as [|f folders IH]; [discriminate|].
  simpl. destruct (invalid_folder f); simpl; [reflexivity|]. exact IH.
Qed.

Section CreateBranch.
Context {world : Type} (h : forall c : cmd, world -> resp c * world).

(** [create_branch] once its folder arguments passed the two tests. *)
Lemma run_create_branch_valid core branch folders w :
  folders <> [] ->
  existsb invalid_folder folders = false ->
  run h (create_branch core branch folders) w =
  run h (remote_branches <- get_remote_branches ;;
         entries <- get_entries core remote_branches ;;
         local_branches <- get_local_branches ;;
         if PyStr.mem branch remote_branches
         then Raise (Program DuplicateRemoteBranchError)
         else if PyStr.mem branch local_branches
         then Raise (Program DuplicateLocalBranchError)
         else
           let entries := entries ++ [(branch, folders, "")] in
           with_SaveBranch (
             save_entries core entries ("Add branch " ++ branch) ;;
             to_branch "main" ;;
             pull ;;
             create_remote_branch branch) ;;
           user_name <- get_user_name ;;
           working_branch <- get_working_branch ;;
           update_perms_using_entries (platform core) user_name entries working_branch) w.
Proof.
  intros Hne Hv. unfold create_branch.
  destruct folders as [|f folders]; [congruence|].
  cbn [List.length Nat.eqb]. now rewrite (validate_folders_ok _ Hv).
Qed.

(** C4: with no folder, [create_branch] raises UnspecifiedFolders, and with
    a folder name that is [.] or contains [/], [\], [,] or [;] it raises
    InvalidFolder, in both cases without a single call to git or the file
    system; past these tests, and once the branch lists and the ledger are
    read, a branch in the remote list raises DuplicateRemote, and otherwise a
    branch in the local list raises DuplicateLocal. *)
Theorem create_branch_validation core branch folders w :
  (folders = [] ->
   run h (create_branch core branch folders) w
   = (Err (Program UnspecifiedFoldersError), w, []))
  /\ (folders <> [] ->
      (exists folder, In folder folders /\ reserved_name folder) ->
      run h (create_branch core branch folders) w
      = (Err (Program InvalidFolderError), w, []))
  /\ (folders <> [] ->
      (forall folder, In folder folders -> ~ reserved_name folder) ->
      forall remote w1 t1 entries w2 t2,
        run h get_remote_branches w = (Ok remote, w1, t1) ->
        run h (get_entries core remote) w1 = (Ok entries, w2, t2) ->
        (PyStr.mem branch remote = true ->
         run h (create_branch core branch folders) w
         = (Err (Program DuplicateRemoteBranchError),
            snd (h Branches w2), t1 ++ t2 ++ [Branches]))
        /\ (PyStr.mem branch remote = false ->
            PyStr.mem branch (fst (h Branches w2)) = true ->
            run h (create_branch core branch folders) w
            = (Err (Program DuplicateLocalBranchError),
               snd (h Branches w2), t1 ++ t2 ++ [Branches]))).
Proof.
  split; [|split].
  - intros ->. reflexivity.
  - intros Hne (f & Hin & Hf).
    assert (Hex : existsb invalid_folder folders = true).
    { apply existsb_exists. exists f. split; [exact Hin|]. now apply invalid_folder_reserved. }
    unfold create_branch. destruct folders as [|f0 folders]; [congruence|].
    cbn [List.length Nat.eqb]. now rewrite (validate_folders_invalid _ Hex).
  - intros Hne Hall remote w1 t1 entries w2 t2 Hr He.
    assert (Hv : existsb invalid_folder folders = false).
    { destruct (existsb invalid_folder folders) eqn:E; [|reflexivity].
      apply existsb_exists in E as (f & Hin & Hf).
      apply invalid_folder_reserved in Hf. now destruct (Hall f Hin). }
    rewrite (run_create_branch_valid _ _ _ _ Hne Hv).
    rewrite run_bind, Hr, run_bind, He.
    rewrite run_bind, run_get_local_branches. cbn [fst snd].
    split.
    + intros Hm. rewrite Hm. reflexivity.
    + intros Hm Hl. rewrite Hm, Hl. reflexivity.
Qed.

End CreateBranch.

Lemma create_branch_validation_witness :
  run git (create_branch demo_core "feature-x" ["partB"]) shared_repo
  = (Err (Program DuplicateRemoteBranchError), shared_repo,
     [GitRemoteUpdate; RemoteRefs] ++
     [GitFetch "status"; GitShow "origin/status:status.txt"] ++ [Branches])
  /\ run git (create_branch demo_core "feature-y" ["partB"]) shared_repo
     = (Err (Program DuplicateLocalBranchError), shared_repo,
        [GitRemoteUpdate; RemoteRefs] ++
        [GitFetch "status"; GitShow "origin/status:status.txt"] ++ [Branches])
  /\ run git (create_branch demo_core "feature-z" ["a/b"]) shared_repo
     = (Err (Program InvalidFolderError), shared_repo, []).
Proof.
  assert (V : forall folder, In folder ["partB"] -> ~ reserved_name folder).
  { intros folder [<-|[]] H. apply invalid_folder_reserved in H. discriminate H. }
  assert (N : ["partB"] <> @nil string) by discriminate.
  destruct (create_branch_validation git demo_core "feature-x" ["partB"] shared_repo)
    as (_ & _ & X).
  destruct (create_branch_validation git demo_core "feature-y" ["partB"] shared_repo)
    as (_ & _ & Y).
  destruct (create_branch_validation git demo_core "feature-z" ["a/b"] shared_repo)
    as (_ & Z & _).
  split; [|split].
  - apply (X N V ["main"; "status"; "feature-x"] shared_repo [GitRemoteUpdate; RemoteRefs]
             [("feature-x", ["partA"], "")] shared_repo
             [GitFetch "status"; GitShow "origin/status:status.txt"]);
      reflexivity.
  - apply (Y N V ["main"; "status"; "feature-x"] shared_repo [GitRemoteUpdate; RemoteRefs]
             [("feature-x", ["partA"], "")] shared_repo
             [GitFetch "status"; GitShow "origin/status:status.txt"]);
      reflexivity.
  - apply Z.
    + discriminate.
    + exists "a/b". split; [now left|]. right. left. reflexivity.
Defined.

(* ================================================================= *)
(** ** Permission reconciliation: [update_perms_using_entries] *)

Section Perms.
Context {world : Type} (h : forall c : cmd, world -> resp c * world).

Lemma run_chmod_files root mode files w :
  run h (for_each files (fun file_name => call (Chmod (path_join root file_name) mode))) w
  = (Ok tt,
     exec_all h (map (fun file_name => Chmod (path_join root file_name) mode) files) w,
     map (fun file_name => Chmod (path_join root file_name) mode) files).
Proof.
  revert w. induction files as [|f files IH]; intros w; [reflexivity|].
  simpl. destruct (h (Chmod (path_join root f) mode) w) as [[] w1].
  now rewrite IH.
Qed.

Lemma run_chmod_walked mode walked w :
  run h (for_each walked (fun '(root, files) =>
           for_each files (fun file_name => call (Chmod (path_join root file_name) mode)))) w
  = (Ok tt,
     exec_all h (map (fun path => Chmod path mode) (walk_paths walked)) w,
     map (fun path => Chmod path mode) (walk_paths walked)).
Proof.
  revert w. induction walked as [|[root files] walked IH]; intros w; [reflexivity|].
  cbn [for_each]. rewrite run_bind, run_chmod_files, IH.
  unfold walk_paths. cbn [flat_map fst snd]. fold (walk_paths walked).
  rewrite map_app, exec_all_app, map_map. reflexivity.
Qed.

Lemma run_set_folder_perms platform folder perm w :
  run h (set_folder_perms platform folder perm) w
  = (Ok tt,
     exec_all h (folder_calls platform folder perm (fst (h (Walk folder) w))) w,
     folder_calls platform folder perm (fst (h (Walk folder) w))).
Proof.
  unfold set_folder_perms, folder_calls. cbn [bind call].
  rewrite run_Call, run_chmod_walked. reflexivity.
Qed.

Lemma run_perms_loop platform owned folders listing n w :
  run h (for_fold listing n (fun free_count '(name, is_dir) =>
           if negb (PyStr.startswith "." name) && is_dir then
             if owned && PyStr.mem name folders then
               set_folder_perms platform name READ_WRITE ;;
               Ret (free_count + 1)%nat
             else
               set_folder_perms platform name READ_ONLY ;;
               Ret free_count
           else Ret free_count)) w
  = (Ok (n + (if owned then matched_folders folders (top_level_dirs listing) else 0))%nat,
     exec_all h (perm_calls h platform owned folders (top_level_dirs listing) w) w,
     perm_calls h platform owned folders (top_level_dirs listing) w).
Proof.
  revert n w. induction listing as [|[name is_dir] listing IH]; intros n w.
  - simpl. destruct owned; now rewrite Nat.add_0_r.
  - cbn [for_fold]. unfold top_level_dirs. cbn [filter fst snd].
    destruct (negb (PyStr.startswith "." name) && is_dir) eqn:Ed.
    + cbn [map fst]. fold (top_level_dirs listing). cbn [perm_calls].
      unfold perm_for, matched_folders. cbn [filter].
      rewrite run_bind.
      destruct (owned && PyStr.mem name folders) eqn:Eo.
      * rewrite run_bind, run_set_folder_perms. cbn [run]. rewrite IH.
        apply andb_true_iff in Eo as [-> ->]. cbn [List.length].
        rewrite exec_all_app, app_nil_r. f_equal. f_equal. f_equal.
        unfold matched_folders. lia.
      * rewrite run_bind, run_set_folder_perms. cbn [run]. rewrite IH.
        rewrite exec_all_app, app_nil_r. f_equal. f_equal. f_equal.
        unfold matched_folders. destruct owned; [|reflexivity].
        simpl in Eo. now rewrite Eo.
    + fold (top_level_dirs listing). rewrite run_bind. cbn [run]. now rewrite IH.
Qed.

Lemma run_update_perms_entry platform user_email entries branch b folders owner w :
  next_entry branch entries = Some (b, folders, owner) ->
  let owned := String.eqb owner user_email in
  let dirs := top_level_dirs (fst (h Scandir w)) in
  let calls := perm_calls h platform owned folders dirs (snd (h Scandir w)) in
  run h (update_perms_using_entries platform user_email entries branch) w
  = ((if owned && negb (Nat.eqb (matched_folders folders dirs) (List.length folders))
      then Err (Program ApplyPermissionsError) else Ok tt),
     exec_all h (Scandir :: calls) w,
     Scandir :: calls).
Proof.
  intros Hn. cbv zeta. unfold update_perms_using_entries. rewrite Hn.
  cbn [bind call]. rewrite run_Call, run_bind, run_perms_loop. cbn [Nat.add].
  change (exec_all h (Scandir :: ?t) w) with (exec_all h t (snd (h Scandir w))).
  destruct (String.eqb owner user_email); [destruct (Nat.eqb _ _)|];
    cbn [andb negb run]; now rewrite app_nil_r.
Qed.

(** C7: for a branch with no entry, the reconciliation does nothing. With
    an entry, it visits the top-level directories whose name does not start
    with a dot, in the order [os.scandir] lists them, and sets every file
    [os.walk] finds under one to read-write when the owner of the entry is
    the acting identity and the directory is one of the folders of the
    entry, and to read-only otherwise. It then raises ApplyPermissions
    exactly when the owner is the identity and the number of directories that
    matched a folder differs from the length of the folder list; when the
    owner is someone else it never raises. *)
Theorem update_perms_using_entries_spec platform user_email entries branch w :
  match next_entry branch entries with
  | None =>
      run h (update_perms_using_entries platform user_email entries branch) w
      = (Ok tt, w, [])
  | Some (_, folders, owner) =>
      let owned := String.eqb owner user_email in
      let dirs := top_level_dirs (fst (h Scandir w)) in
      trace h (update_perms_using_entries platform user_email entries branch) w
      = Scandir :: perm_calls h platform owned folders dirs (snd (h Scandir w))
      /\ (outcome h (update_perms_using_entries platform user_email entries branch) w
          = Err (Program ApplyPermissionsError)
          <-> owner = user_email
              /\ matched_folders folders dirs <> List.length folders)
      /\ (outcome h (update_perms_using_entries platform user_email entries branch) w
          = Ok tt
          <-> ~ (owner = user_email
                 /\ matched_folders folders dirs <> List.length folders))
      /\ (owner <> user_email ->
          outcome h (update_perms_using_entries platform user_email entries branch) w
          = Ok tt)
  end.
Proof.
  destruct (next_entry branch entries) as [[[b folders] owner]|] eqn:Hn.
  - cbv zeta. unfold trace, outcome.
    rewrite (run_update_perms_entry _ _ _ _ _ _ _ _ Hn). cbn [fst snd].
    split; [reflexivity|].
    destruct (String.eqb_spec owner user_email) as [Ho|Ho]; cbn [andb].
    + destruct (Nat.eqb_spec (matched_folders folders (top_level_dirs (fst (h Scandir w))))
                             (List.length folders)) as [Hm|Hm]; cbn [negb].
      * repeat split; try discriminate; try tauto; intros; tauto.
      * repeat split; try discriminate; try tauto; intros; tauto.
    + repeat split; try discriminate; try tauto; intros; tauto.
  - unfold update_perms_using_entries. now rewrite Hn.
Qed.

End Perms.

(** The calls on one directory carry the mode of its permission. *)
Lemma folder_calls_modes platform folder perm walked c :
  In c (folder_calls platform folder perm walked) ->
  c = Walk folder
  \/ exists path, In path (walk_paths walked) /\ c = Chmod path (file_flags platform perm).
Proof.
  unfold folder_calls. intros [<-|H]; [now left|]. right.
  apply in_map_iff in H as (path & <- & Hp). now exists path.
Qed.

Lemma update_perms_using_entries_spec_witness :
  trace git (update_perms_using_entries LINUX "alice" perms_entries "feature-x")
        (fresh "alice")
  = [Scandir;
     Walk "partA"; Chmod "partA/a.sch" 438; Chmod "partA/a.pcb" 438;
     Walk "partB"; Chmod "partB/b.sch" 292]
  /\ outcome git (update_perms_using_entries LINUX "alice" perms_entries "feature-x")
             (fresh "alice")
     = Err (Program ApplyPermissionsError)
  /\ outcome git (update_perms_using_entries LINUX "bob" perms_entries "feature-x")
             (fresh "bob")
     = Ok tt.
Proof.
  pose proof (update_perms_using_entries_spec git LINUX "alice" perms_entries
                "feature-x" (fresh "alice")) as A.
  pose proof (update_perms_using_entries_spec git LINUX "bob" perms_entries
                "feature-x" (fresh "bob")) as B.
  cbn [next_entry perms_entries find entry_branch fst snd String.eqb Ascii.eqb Bool.eqb] in A, B.
  destruct A as (At & Ae & _). destruct B as (_ & _ & _ & Bo).
  split; [exact At|]. split.
  - apply Ae. split; [reflexivity|]. vm_compute. discriminate.
  - apply Bo. discriminate.
Defined.

(* ================================================================= *)
(** ** Ledger updates: [checkout_branch], [checkin_branch], [create_branch] *)

Module LedgerUpdate.

Lemma Entry_eqb_eq (a b : Entry) : Entry_eqb a b = true <-> a = b.
Proof.
  destruct a as [[ab af] ao], b as [[bb bf] bo].
  unfold Entry_eqb, string_list_eqb, entry_branch, entry_folders, entry_owner; cbn [fst snd].
  rewrite !andb_true_iff, !String.eqb_eq.
  destruct (list_eq_dec string_dec af bf) as [E|N]; split.
  - intros [[-> _] ->]. now subst.
  - intros H. inversion H. auto.
  - intros [[_ H] _]. discriminate.
  - intros H. inversion H. contradiction.
Qed.

(** [next] finds the first entry of the branch, and [remove] drops that
    very entry. *)
Lemma next_entry_remove branch ledger e :
  next_entry branch ledger = Some e ->
  exists l1 l2,
    ledger = l1 ++ e :: l2
    /\ Forall (fun x => entry_branch x <> branch) l1
    /\ entry_branch e = branch
    /\ list_remove e ledger = Ok (l1 ++ l2).
Proof.
  unfold next_entry. induction ledger as [|x ledger IH]; [discriminate|].
  cbn [find list_remove]. destruct (String.eqb_spec (entry_branch x) branch) as [Ex|Nx].
  - intros H. inversion H; subst x. exists [], ledger.
    rewrite (proj2 (Entry_eqb_eq e e) eq_refl). repeat split; auto.
  - intros H. destruct (IH H) as (l1 & l2 & -> & Hl1 & He & Hr).
    exists (x :: l1), l2. rewrite Hr.
    destruct (Entry_eqb x e) eqn:Exe.
    + apply Entry_eqb_eq in Exe. subst x. contradiction.
    + repeat split; auto.
Qed.




Lemma encode_entries_app l1 l2 :
  encode_entries (l1 ++ l2) = (encode_entries l1 ++ encode_entries l2)%string.
Proof.
  induction l1 as [|e l1 IH]; [reflexivity|].
  cbn [app encode_entries fold_right]. fold (encode_entries (l1 ++ l2)).
  fold (encode_entries l1). now rewrite IH, PyStrFacts.append_assoc.
Qed.

End LedgerUpdate.

Section LedgerUpdateRun.
Context {world : Type} (h : forall c : cmd, world -> resp c * world).

Lemma run_save_entries_Ok core entries msg w w' t :
  run h (save_entries core entries msg) w = (Ok tt, w', t) ->
  t = [GitCheckout (status_branch core); GitPull;
       WriteFile (status_file core) (encode_entries entries);
       GitAdd [status_file core]; GitCommit msg; GitPush].
Proof.
  unfold save_entries. rewrite run_bind, run_to_branch.
  destruct (fst (h (GitCheckout (status_branch core)) w)); [|discriminate].
  unfold pull, add_commit_push, add, commit, push. cbn [bind call].
  rewrite !run_Call. unfold call. rewrite run_Call. cbn [run].
  intros H. inversion H. reflexivity.
Qed.

Lemma run_with_SaveBranch_Ok {A} (body : prog A) w a w' t :
  run h (with_SaveBranch body) w = (Ok a, w', t) ->
  exists w2 w3 tb tail,
    run h body w2 = (Ok a, w3, tb)
    /\ t = [ActiveBranch; GitStashU] ++ tb ++ tail.
Proof.
  rewrite (run_with_SaveBranch h). cbv zeta.
  destruct (run h body _) as [[r w3] tb] eqn:E. cbn [fst snd].
  destruct (fst (h (GitCheckout _) w3)); [|discriminate].
  intros H. inversion H; subst. eexists _, w3, tb, _. split; [exact E|reflexivity].
Qed.

Lemma run_get_filtered_entries_Ok core branch w entries e w' t :
  run h (get_filtered_entries core branch) w = (Ok (entries, e), w', t) ->
  exists ledger,
    run h (branch_status core) w = (Ok ledger, w', t)
    /\ next_entry branch ledger = Some e
    /\ list_remove e ledger = Ok entries.
Proof.
  unfold get_filtered_entries. rewrite run_branch_status, run_bind.
  destruct (run h get_remote_branches w) as [[[remote|x] w0] t0]; [|discriminate].
  rewrite run_bind.
  destruct (run h (get_entries core remote) w0) as [[[ledger|x] w1] t1]; [|discriminate].
  destruct (negb (PyStr.mem branch remote)); [discriminate|].
  destruct (next_entry branch ledger) as [be|] eqn:En; [|discriminate].
  rewrite run_bind, run_lift.
  destruct (list_remove be ledger) as [removed|x] eqn:Er; [|discriminate].
  cbn [run]. rewrite !app_nil_r. intros H. inversion H; subst.
  exists ledger. now rewrite Er.
Qed.



(** C10: whenever [create_branch] succeeds for a folder list that names one
    valid folder twice, the ledger it writes, commits and pushes is the
    ledger it read followed by the new entry with both occurrences of the
    name, and the text written ends with the record [branch;f,f;]. *)
Theorem create_branch_keeps_duplicate_folders core branch folder w w' t :
  invalid_folder folder = false ->
  run h (create_branch core branch [folder; folder]) w = (Ok tt, w', t) ->
  exists ledger w1 t1,
    run h (branch_status core) w = (Ok ledger, w1, t1)
    /\ pushes_ledger core (ledger ++ [(branch, [folder; folder], "")]) t
    /\ encode_entries (ledger ++ [(branch, [folder; folder], "")])
       = (encode_entries ledger
          ++ branch ++ ";" ++ folder ++ "," ++ folder ++ ";" ++ PyStr.nl)%string.
Proof.
  intros Hv H. rewrite run_create_branch_valid in H;
    [|discriminate|cbn [existsb]; now rewrite Hv].
  apply run_bind_Ok in H as (remote & w0 & t0 & t1 & Hr & H & ->).
  apply run_bind_Ok in H as (ledger & w1 & t2 & t3 & He & H & ->).
  apply run_bind_Ok in H as (locals & w2 & t4 & t5 & Hl & H & ->).
  rewrite run_get_local_branches in Hl. inversion Hl; subst locals w2 t4. clear Hl.
  destruct (PyStr.mem branch remote); [discriminate H|].
  match type of H with
  | context [PyStr.mem branch ?l] => destruct (PyStr.mem branch l); [discriminate H|]
  end.
  cbv zeta in H.
  apply run_bind_Ok in H as ([] & w3 & t6 & t7 & Hg & H & ->).
  apply run_with_SaveBranch_Ok in Hg as (w4 & w5 & tb & tail & Hb & ->).
  apply run_bind_Ok in Hb as ([] & w6 & t8 & t9 & Hs & _ & ->).
  apply run_save_entries_Ok in Hs. subst t8.
  exists ledger, w1, (t0 ++ t2). split; [|split].
  - rewrite run_branch_status, Hr, He. reflexivity.
  - exists (t0 ++ t2 ++ [Branches] ++ [ActiveBranch; GitStashU]
            ++ [GitCheckout (status_branch core); GitPull]),
      ("Add branch " ++ branch)%string, (t9 ++ tail ++ t7).
    cbn [app]. rewrite <- !app_assoc. reflexivity.
  - rewrite LedgerUpdate.encode_entries_app.
    unfold encode_entries at 2. cbn [fold_right encode_entry PyStr.join].
    now rewrite PyStrFacts.append_empty_r, !PyStrFacts.append_assoc.
Qed.

End LedgerUpdateRun.


Lemma create_branch_keeps_duplicate_folders_witness :
  exists ledger w1 t1,
    run git (branch_status demo_core) (fresh "alice") = (Ok ledger, w1, t1)
    /\ pushes_ledger demo_core (ledger ++ [("feature-x", ["partA"; "partA"], "")])
         (trace git (create_branch demo_core "feature-x" ["partA"; "partA"]) (fresh "alice"))
    /\ encode_entries (ledger ++ [("feature-x", ["partA"; "partA"], "")])
       = (encode_entries ledger
          ++ "feature-x" ++ ";" ++ "partA" ++ "," ++ "partA" ++ ";" ++ PyStr.nl)%string.
Proof.
  apply (create_branch_keeps_duplicate_folders git demo_core "feature-x" "partA"
           (fresh "alice")
           (final git (create_branch demo_core "feature-x" ["partA"; "partA"]) (fresh "alice"))
           (trace git (create_branch demo_core "feature-x" ["partA"; "partA"]) (fresh "alice")));
    [reflexivity|].
  unfold final, trace. vm_compute. reflexivity.
Defined.

(* ================================================================= *)
(** ** Remote branches and split strings *)

Module SplitFacts.
Import PyStr.

Lemma split_pieces_free sep s : Forall (fun x => contains sep x = false) (split sep s).
Proof.
  induction s as [|a s IH]; simpl.
  - now constructor.
  - destruct (Ascii.eqb a sep) eqn:E.
    + constructor; [reflexivity | exact IH].
    + destruct (split sep s) as [|x xs].
      * constructor; [simpl; now rewrite E | constructor].
      * inversion IH; subst. constructor; [simpl; now rewrite E | assumption].
Qed.

Lemma split_pieces_keep c sep s :
  contains c s = false -> Forall (fun x => contains c x = false) (split sep s).
Proof.
  induction s as [|a s IH]; simpl.
  - intros _. now constructor.
  - intros H. apply orb_false_iff in H as [Ha Hs]. specialize (IH Hs).
    destruct (Ascii.eqb a sep).
    + constructor; [reflexivity | exact IH].
    + destruct (split sep s) as [|x xs].
      * constructor; [simpl; now rewrite Ha | constructor].
      * inversion IH; subst. constructor; [simpl; now rewrite Ha | assumption].
Qed.

Lemma lstrip_blank s : blank s = true -> lstrip newline s = "".
Proof.
  induction s as [|a s IH]; simpl; [reflexivity|].
  intros H. apply andb_true_iff in H as [Ha Hs]. now rewrite Ha, IH.
Qed.

Lemma strip_blank s : blank s = true -> strip newline s = "".
Proof. intros H. unfold strip. now rewrite lstrip_blank. Qed.

Lemma record_entry_decoded r e :
  contains newline r = false -> record_entry r = Some e -> decoded_entry e.
Proof.
  unfold record_entry. intros Hr H.
  pose proof (split_pieces_free ";" r) as Hf.
  pose proof (split_pieces_keep newline ";" r Hr) as Hn.
  destruct (split ";" r) as [|b [|f [|o [|x l]]]]; try discriminate.
  inversion H; subst e. clear H.
  inversion Hf as [|? ? Hb Hf1]; subst. inversion Hf1 as [|? ? Hfo Hf2]; subst.
  inversion Hf2 as [|? ? Ho _]; subst.
  inversion Hn as [|? ? Nb Hn1]; subst. inversion Hn1 as [|? ? Nf Hn2]; subst.
  inversion Hn2 as [|? ? No _]; subst.
  unfold decoded_entry, entry_folders, entry_branch, entry_owner. cbn [fst snd].
  repeat split; try assumption.
  - apply PyStrFacts.split_not_nil.
  - pose proof (split_pieces_free "," f) as H1.
    pose proof (split_pieces_keep ";" "," f Hfo) as H2.
    pose proof (split_pieces_keep newline "," f Nf) as H3.
    rewrite Forall_forall in *. intros x Hx. auto.
Qed.

Lemma stored_records_lines content :
  Forall (fun r => contains newline r = false) (stored_records content).
Proof.
  unfold stored_records. destruct (is_empty _); [constructor|].
  apply split_pieces_free.
Qed.

End SplitFacts.

Section RemoteBranches.
Context {world : Type} (h : forall c : cmd, world -> resp c * world).

Lemma run_collect_branches branches res (w : world) :
  run h (for_fold (map origin_ref branches) res (fun res name =>
           if PyStr.startswith "origin/HEAD" name then Ret res
           else match nth_error (PyStr.split1 "/" name) 1 with
                | Some b => Ret (res ++ [b])
                | None => Raise IndexError
                end)) w
  = (Ok (res ++ filter listed_branch branches), w, []).
Proof.
  revert res. induction branches as [|b branches IH]; intros res.
  - simpl. now rewrite app_nil_r.
  - cbn [map for_fold filter]. rewrite run_bind.
    change (PyStr.startswith "origin/HEAD" (origin_ref b)) with (PyStr.startswith "HEAD" b).
    change (nth_error (PyStr.split1 "/" (origin_ref b)) 1) with (Some b).
    unfold listed_branch at 1.
    destruct (PyStr.startswith "HEAD" b); cbn [negb run]; rewrite IH.
    + reflexivity.
    + now rewrite <- app_assoc.
Qed.

(** X1: when the refs of the remote are the refs [origin/b] of the branches
    [b] of a list, [get_remote_branches] returns the branches of that list
    whose name does not start with [HEAD], in the order of the refs; a
    branch name may itself contain [/]. It runs [git remote update origin
    --prune] first and never raises. *)
Theorem get_remote_branches_origin (branches : list string) (w : world) :
  fst (h RemoteRefs (snd (h GitRemoteUpdate w))) = map origin_ref branches ->
  run h get_remote_branches w
  = (Ok (filter listed_branch branches),
     snd (h RemoteRefs (snd (h GitRemoteUpdate w))),
     [GitRemoteUpdate; RemoteRefs]).
Proof.
  intros H. unfold get_remote_branches. cbn [bind call].
  rewrite !run_Call. rewrite H. rewrite run_collect_branches. reflexivity.
Qed.

End RemoteBranches.


(* ================================================================= *)
(** ** Reading a blank or missing status file *)

Section LedgerReadMore.
Context {world : Type} (h : forall c : cmd, world -> resp c * world).

Lemma run_show_file_from_origin branch file (w : world) :
  let rev := ("origin/" ++ branch ++ ":" ++ file)%string in
  let w1 := snd (h (GitFetch branch) w) in
  run h (show_file_from_origin branch file) w
  = (Ok (match fst (h (GitShow rev) w1) with Some s => s | None => "" end),
     snd (h (GitShow rev) w1), [GitFetch branch; GitShow rev]).
Proof.
  cbv zeta. unfold show_file_from_origin. cbn [bind call]. rewrite !run_Call.
  now destruct (fst (h (GitShow _) _)).
Qed.

Lemma run_read_status_remote core remote (w : world) :
  PyStr.mem (status_branch core) remote = true ->
  run h (read_status core remote) w
  = run h (show_file_from_origin (status_branch core) (status_file core)) w.
Proof.
  intros H. unfold read_status. rewrite H. cbn [negb]. rewrite run_bind. cbn [run].
  now destruct (run h (show_file_from_origin _ _) w) as [[r w1] t1].
Qed.

(** X2: with the status branch among the remote branches, a status file that
    [git show] cannot show, or that holds nothing but newlines, is read as
    the empty ledger: [get_entries] returns the empty list, having issued
    the fetch and the show and nothing else. *)
Theorem get_entries_blank core remote (w : world) :
  PyStr.mem (status_branch core) remote = true ->
  match fst (h (GitShow (status_rev core)) (snd (h (GitFetch (status_branch core)) w))) with
  | Some content => blank content = true
  | None => True
  end ->
  run h (get_entries core remote) w
  = (Ok [],
     snd (h (GitShow (status_rev core)) (snd (h (GitFetch (status_branch core)) w))),
     [GitFetch (status_branch core); GitShow (status_rev core)]).
Proof.
  intros Hm Hb. rewrite run_get_entries, (run_read_status_remote _ _ _ Hm).
  rewrite run_show_file_from_origin. fold (status_rev core).
  f_equal. f_equal. unfold decode_status.
  destruct (fst (h (GitShow (status_rev core)) _)) as [content|].
  - now rewrite (SplitFacts.strip_blank _ Hb).
  - reflexivity.
Qed.

(** X3: every entry [get_entries] returns has at least one folder name, no
    [;] and no newline in its branch name and its owner, and no [,], [;] or
    newline in a folder name. *)
Theorem get_entries_fields core remote (w : world) entries w' t :
  run h (get_entries core remote) w = (Ok entries, w', t) ->
  Forall decoded_entry entries.
Proof.
  rewrite run_get_entries.
  destruct (run h (read_status core remote) w) as [[[content|e] w1] t1]; [|discriminate].
  intros H. inversion H as [[Hd Hw Ht]]. clear H.
  apply LedgerRead.decode_status_Ok in Hd as (stored & Hs & ->).
  apply Forall_forall. intros e He. apply filter_In in He as [He _].
  assert (Hin : In (Some e) (map record_entry (stored_records content))).
  { rewrite Hs. now apply in_map. }
  apply in_map_iff in Hin as (r & Hr & Hin).
  pose proof (SplitFacts.stored_records_lines content) as Hl.
  rewrite Forall_forall in Hl.
  exact (SplitFacts.record_entry_decoded r e (Hl r Hin) Hr).
Qed.

End LedgerReadMore.

Lemma get_remote_branches_origin_witness :
  run git get_remote_branches nested_repo
  = (Ok ["main"; "status"; "feature/x"], nested_repo, [GitRemoteUpdate; RemoteRefs]).
Proof.
  apply (get_remote_branches_origin git ["HEAD"; "main"; "status"; "feature/x"; "HEAD-fix"]
           nested_repo).
  reflexivity.
Defined.

Lemma get_entries_blank_witness :
  run git (get_entries demo_core ["main"; "status"; "feature/x"]) nested_repo
  = (Ok [], nested_repo, [GitFetch "status"; GitShow "origin/status:status.txt"]).
Proof.
  apply (get_entries_blank git demo_core ["main"; "status"; "feature/x"] nested_repo);
    reflexivity.
Defined.

Lemma get_entries_fields_witness :
  Forall decoded_entry
    [("feature-x", ["partA"], "alice"); ("feature-z", ["partC"; "partD"], "")].
Proof.
  apply (get_entries_fields git demo_core ["main"; "status"; "feature-x"; "feature-z"]
           pruned_repo
           [("feature-x", ["partA"], "alice"); ("feature-z", ["partC"; "partD"], "")]
           pruned_repo [GitFetch "status"; GitShow "origin/status:status.txt"]).
  reflexivity.
Defined.


(* ================================================================= *)
(** ** What the operations can raise *)

Section Raises.

Lemma raises_in_weaken {A} (P Q : exn -> Prop) (p : prog A) :
  (forall e, P e -> Q e) -> raises_in P p -> raises_in Q p.
Proof.
  intros HPQ. induction p as [a|e|c k IH]; simpl; auto.
Qed.

Lemma raises_in_bind {A B} (P : exn -> Prop) (m : prog A) (f : A -> prog B) :
  raises_in P m -> (forall a, raises_in P (f a)) -> raises_in P (bind m f).
Proof.
  intros Hm Hf. induction m as [a|e|c k IH]; simpl in *; auto.
Qed.

Lemma raises_in_lift {A} (P : exn -> Prop) (r : result A) :
  (forall e, r = Err e -> P e) -> raises_in P (lift r).
Proof. destruct r; simpl; auto. Qed.

Lemma raises_in_for_each {X} (P : exn -> Prop) (l : list X) body :
  (forall x, raises_in P (body x)) -> raises_in P (for_each l body).
Proof.
  intros H. induction l as [|x l IH]; simpl; [exact I|].
  apply raises_in_bind; auto.
Qed.

Lemma raises_in_for_fold {X S} (P : exn -> Prop) (l : list X) (s : S) body :
  (forall s x, raises_in P (body s x)) -> raises_in P (for_fold l s body).
Proof.
  intros H. revert s. induction l as [|x l IH]; intros s; simpl; [exact I|].
  apply raises_in_bind; auto.
Qed.

Lemma raises_in_finally {A} (P : exn -> Prop) (body : prog A) fin :
  raises_in P body -> raises_in P fin -> raises_in P (finally body fin).
Proof.
  intros Hb Hf. induction body as [a|e|c k IH]; simpl in *.
  - apply raises_in_bind; [exact Hf | intros; exact I].
  - apply raises_in_bind; [exact Hf | intros; exact Hb].
  - intros r. apply IH, Hb.
Qed.

Lemma raises_in_try_except {A} (P Q : exn -> Prop) (body : prog A) handler :
  raises_in P body ->
  (forall e, P e -> match handler e with
                    | Some hd => raises_in Q hd
                    | None => Q e
                    end) ->
  raises_in Q (try_except body handler).
Proof.
  intros Hb Hh. induction body as [a|e|c k IH]; simpl in *.
  - exact I.
  - specialize (Hh e Hb). now destruct (handler e).
  - intros r. apply IH, Hb.
Qed.

Context {world : Type} (h : forall c : cmd, world -> resp c * world).

Lemma raises_in_run {A} (P : exn -> Prop) (p : prog A) (w : world) e w' t :
  raises_in P p -> run h p w = (Err e, w', t) -> P e.
Proof.
  revert w t. induction p as [a|x|c k IH]; intros w t Hp H; simpl in *.
  - discriminate.
  - now inversion H; subst.
  - destruct (h c w) as [r w1].
    destruct (run h (k r) w1) as [[res w2] t2] eqn:E.
    inversion H; subst. eapply IH; [apply Hp | exact E].
Qed.

End Raises.

Module ErrorSets.

Ltac in_list := unfold any_of; cbn; tauto.

Lemma get_remote_branches_raises : raises_in (any_of [IndexError]) get_remote_branches.
Proof.
  unfold get_remote_branches. cbn [bind call raises_in]. intros _ refs.
  apply raises_in_for_fold. intros res name.
  destruct (PyStr.startswith _ _); [exact I|].
  destruct (nth_error _ _); [exact I | in_list].
Qed.

Lemma SaveBranch_raises {A} (P : exn -> Prop) (body : prog A) :
  raises_in P body -> P (Program UnsavedError) -> raises_in P (with_SaveBranch body).
Proof.
  intros Hb Hu. unfold with_SaveBranch, with_, SaveBranch_enter.
  cbn [bind call get_working_branch stash_untracked raises_in]. intros b s.
  apply raises_in_finally; [exact Hb|].
  unfold SaveBranch_exit, to_branch. cbn [bind call raises_in sb_branch sb_stash].
  intros [|]; cbn [bind raises_in]; [|exact Hu].
  destruct (negb _); cbn; auto.
Qed.

Lemma create_status_branch_raises core :
  raises_in (any_of [Program DuplicateStatusBranchError; Program UnsavedError])
            (create_status_branch core).
Proof.
  unfold create_status_branch. cbn [bind call get_local_branches raises_in]. intros locals.
  destruct (PyStr.mem _ _); [in_list|].
  apply SaveBranch_raises; [|in_list]. cbn. auto.
Qed.

Lemma parse_records_raises remote records acc e :
  parse_records remote records acc = Err e -> e = ValueError.
Proof.
  revert acc. induction records as [|r records IH]; intros acc; simpl; [discriminate|].
  destruct (PyStr.split ";" r) as [|b [|f [|o [|x l]]]]; try (intros H; now inversion H).
  apply IH.
Qed.

Lemma decode_status_raises remote content e :
  decode_status remote content = Err e -> e = ValueError.
Proof.
  unfold decode_status. destruct (PyStr.is_empty _); [discriminate|].
  apply parse_records_raises.
Qed.

Lemma get_entries_raises core remote :
  raises_in (any_of [ValueError; Program DuplicateStatusBranchError; Program UnsavedError])
            (get_entries core remote).
Proof.
  unfold get_entries. apply raises_in_bind.
  - destruct (negb _); [|exact I].
    eapply raises_in_weaken; [|apply create_status_branch_raises]. in_list.
  - intros _. unfold show_file_from_origin. cbn [bind call raises_in]. intros _ shown.
    assert (L : forall content, raises_in
              (any_of [ValueError; Program DuplicateStatusBranchError; Program UnsavedError])
              (lift (decode_status remote content))).
    { intros content. apply raises_in_lift. intros e He.
      apply decode_status_raises in He. subst. in_list. }
    destruct shown; cbn [bind]; apply L.
Qed.

Lemma read_raises core {A} (k : list string -> list Entry -> prog A) (P : exn -> Prop) :
  (forall e, In e read_errors -> P e) ->
  (forall remote entries, raises_in P (k remote entries)) ->
  raises_in P (remote_branches <- get_remote_branches ;;
               entries <- get_entries core remote_branches ;;
               k remote_branches entries).
Proof.
  intros HP Hk. apply raises_in_bind.
  - eapply raises_in_weaken; [|apply get_remote_branches_raises].
    intros e He. apply HP. revert He. unfold read_errors. in_list.
  - intros remote. apply raises_in_bind; [|intros; apply Hk].
    eapply raises_in_weaken; [|apply get_entries_raises].
    intros e He. apply HP. revert He. unfold read_errors. in_list.
Qed.

Lemma list_remove_raises x l e : list_remove x l = Err e -> e = ValueError.
Proof.
  induction l as [|y l IH]; simpl; [intros H; now inversion H|].
  destruct (Entry_eqb y x); [discriminate|].
  destruct (list_remove x l); [discriminate|]. intros H. inversion H; subst. now apply IH.
Qed.

Lemma get_filtered_entries_raises core branch :
  raises_in (any_of lookup_errors) (get_filtered_entries core branch).
Proof.
  unfold get_filtered_entries. apply read_raises.
  - intros e He. unfold any_of, lookup_errors. apply in_or_app. now left.
  - intros remote entries. destruct (negb _); [in_list|].
    destruct (next_entry branch entries) as [be|]; [|in_list].
    apply raises_in_bind; [|intros; exact I].
    apply raises_in_lift. intros e He. apply list_remove_raises in He. subst. in_list.
Qed.

Lemma set_folder_perms_raises platform folder perm (P : exn -> Prop) :
  raises_in P (set_folder_perms platform folder perm).
Proof.
  unfold set_folder_perms. cbn [bind call raises_in]. intros walked.
  apply raises_in_for_each. intros [root files].
  apply raises_in_for_each. intros file_name. cbn. auto.
Qed.

Lemma update_perms_raises platform user entries branch :
  raises_in (any_of [Program ApplyPermissionsError])
            (update_perms_using_entries platform user entries branch).
Proof.
  unfold update_perms_using_entries.
  destruct (next_entry branch entries) as [[[b folders] owner]|]; [|exact I].
  cbn [bind call raises_in]. intros listing. apply raises_in_bind.
  - apply raises_in_for_fold. intros n [name is_dir].
    destruct (_ && is_dir); [|exact I].
    destruct (_ && _); (apply raises_in_bind; [apply set_folder_perms_raises | intros; exact I]).
  - intros n. destruct (_ && _); [in_list | exact I].
Qed.

Lemma save_entries_raises core entries msg :
  raises_in (any_of [Program UnsavedError]) (save_entries core entries msg).
Proof.
  unfold save_entries, to_branch. cbn [bind call raises_in].
  intros [|]; cbn; [auto | in_list].
Qed.

Lemma check_ownership_raises user owner want e :
  check_ownership user owner want = Err e ->
  e = Program ProtectedBranchError
  \/ match want with
     | CLAIMED => e = Program UnownedBranchError
     | UNCLAIMED => e = Program AlreadyOwnedError
     end.
Proof.
  unfold check_ownership. destruct want.
  - destruct (String.eqb owner ""); [intros H; inversion H; auto|].
    destruct (negb _); [intros H; inversion H; auto | discriminate].
  - destruct (String.eqb owner user); [intros H; inversion H; auto|].
    destruct (negb _); [intros H; inversion H; auto | discriminate].
Qed.

Lemma guarded_save_then_perms core user entries msg (P : exn -> Prop) :
  P (Program UnsavedError) -> P (Program ApplyPermissionsError) ->
  raises_in P (with_SaveBranch (save_entries core entries msg) ;;
               working_branch <- get_working_branch ;;
               update_perms_using_entries (platform core) user entries working_branch).
Proof.
  intros Hu Ha. apply raises_in_bind.
  - apply SaveBranch_raises; [|exact Hu].
    eapply raises_in_weaken; [|apply save_entries_raises].
    intros e [<-|[]]. exact Hu.
  - intros _. cbn [bind call get_working_branch raises_in]. intros wb.
    eapply raises_in_weaken; [|apply update_perms_raises].
    intros e [<-|[]]. exact Ha.
Qed.







End ErrorSets.

Section OperationErrors.
Context {world : Type} (h : forall c : cmd, world -> resp c * world).


End OperationErrors.


(* ================================================================= *)
(** ** Looking an entry up, [save_branch] and [move_branch] *)

Section LookupRun.
Context {world : Type} (h : forall c : cmd, world -> resp c * world).

Lemma run_bind_Err {A B} (m : prog A) (f : A -> prog B) (w : world) e w' t :
  run h (bind m f) w = (Err e, w', t) ->
  run h m w = (Err e, w', t)
  \/ exists a w1 t1 t2,
       run h m w = (Ok a, w1, t1) /\ run h (f a) w1 = (Err e, w', t2) /\ t = t1 ++ t2.
Proof.
  rewrite run_bind. destruct (run h m w) as [[[a|x] w1] t1]; [|intros H; left; now inversion H].
  destruct (run h (f a) w1) as [[r w2] t2] eqn:E. intros H; inversion H; subst.
  right. now exists a, w1, t1, t2.
Qed.

Lemma get_entries_in_remote core remote (w : world) ledger w' t :
  run h (get_entries core remote) w = (Ok ledger, w', t) ->
  Forall (fun e => PyStr.mem (entry_branch e) remote = true) ledger.
Proof.
  rewrite run_get_entries.
  destruct (run h (read_status core remote) w) as [[[content|e] w1] t1]; [|discriminate].
  intros H. inversion H as [[Hd Hw Ht]].
  apply LedgerRead.decode_status_Ok in Hd as (stored & _ & ->).
  apply Forall_forall. intros e He. now apply filter_In in He as [_ He].
Qed.

Lemma next_entry_Some branch ledger e :
  next_entry branch ledger = Some e -> In e ledger /\ entry_branch e = branch.
Proof.
  unfold next_entry. intros H. apply find_some in H as [Hi He].
  split; [exact Hi | now apply String.eqb_eq].
Qed.

(** X5: once the remote branches and the ledger are read, [get_filtered_entries]
    returns the first entry of the branch together with the other entries of
    the ledger, in their order; it raises UnassociatedBranch when the branch
    is among the remote branches and the ledger has no entry for it, and
    MissingBranch when the branch is not among the remote branches. It issues
    no call of its own, and the removal of the entry never raises. *)
Theorem get_filtered_entries_spec core branch (w : world) remote w0 t0 ledger w1 t1 :
  run h get_remote_branches w = (Ok remote, w0, t0) ->
  run h (get_entries core remote) w0 = (Ok ledger, w1, t1) ->
  final h (get_filtered_entries core branch) w = w1
  /\ trace h (get_filtered_entries core branch) w = t0 ++ t1
  /\ match next_entry branch ledger with
     | Some e =>
         exists l1 l2,
           ledger = l1 ++ e :: l2
           /\ Forall (fun x => entry_branch x <> branch) l1
           /\ entry_branch e = branch
           /\ outcome h (get_filtered_entries core branch) w = Ok (l1 ++ l2, e)
     | None =>
         outcome h (get_filtered_entries core branch) w
         = Err (Program (if PyStr.mem branch remote then UnassociatedBranchError
                         else MissingBranchError))
     end.
Proof.
  intros Hr He. pose proof (get_entries_in_remote _ _ _ _ _ _ He) as Hin.
  unfold final, trace, outcome, get_filtered_entries.
  rewrite run_bind, Hr, run_bind, He.
  destruct (next_entry branch ledger) as [e|] eqn:En.
  - destruct (next_entry_Some _ _ _ En) as [Hi Hb].
    rewrite Forall_forall in Hin. specialize (Hin e Hi). rewrite Hb in Hin.
    rewrite Hin. cbn [negb].
    destruct (LedgerUpdate.next_entry_remove _ _ _ En) as (l1 & l2 & Hl & Hl1 & _ & Hrm).
    rewrite run_bind, run_lift, Hrm. cbn [run fst snd]. rewrite !app_nil_r.
    repeat split. exists l1, l2. repeat split; assumption.
  - destruct (PyStr.mem branch remote); cbn [negb run fst snd]; rewrite ?app_nil_r;
      repeat split.
Qed.

End LookupRun.

Section SaveBranchRun.
Context {world : Type} (h : forall c : cmd, world -> resp c * world).

Lemma run_add_commit_push folders msg (w : world) :
  run h (add_commit_push folders msg) w
  = (Ok tt, exec_all h [GitAdd folders; GitCommit msg; GitPush] w,
     [GitAdd folders; GitCommit msg; GitPush]).
Proof.
  unfold add_commit_push, add, commit, push, exec_all. simpl.
  destruct (h (GitAdd folders) w) as [[] w1]. simpl.
  destruct (h (GitCommit msg) w1) as [[] w2]. simpl.
  now destruct (h GitPush w2) as [[] w3].
Qed.

Lemma run_probe_folders_Ok folders (w : world) w' t :
  run h (for_each folders (fun folder =>
           found <- call (PathExists folder) ;;
           if found : bool then Ret tt else Raise (Program MissingFolderError))) w
  = (Ok tt, w', t) ->
  t = map PathExists folders.
Proof.
  revert w t. induction folders as [|f folders IH]; intros w t; cbn [for_each map].
  - intros H. now inversion H.
  - intros H. apply run_bind_Ok in H as ([] & w1 & t1 & t2 & Hf & H & ->).
    cbn [bind call] in Hf. rewrite run_Call in Hf.
    destruct (fst (h (PathExists f) w)); [|discriminate].
    cbn [run] in Hf. inversion Hf; subst. cbn [app]. f_equal. eapply IH, H.
Qed.

Lemma run_probe_folders_Err folders (w : world) e w' t :
  run h (for_each folders (fun folder =>
           found <- call (PathExists folder) ;;
           if found : bool then Ret tt else Raise (Program MissingFolderError))) w
  = (Err e, w', t) ->
  exists found missing rest,
    folders = found ++ missing :: rest
    /\ t = map PathExists (found ++ [missing]).
Proof.
  revert w t. induction folders as [|f folders IH]; intros w t; cbn [for_each].
  - discriminate.
  - intros H. apply run_bind_Err in H as [H|(a & w1 & t1 & t2 & Hf & H & ->)].
    + cbn [bind call] in H. rewrite run_Call in H.
      destruct (fst (h (PathExists f) w)); [discriminate|].
      cbn [run] in H. inversion H; subst. now exists [], f, folders.
    + cbn [bind call] in Hf. rewrite run_Call in Hf.
      destruct (fst (h (PathExists f) w)); [|discriminate].
      cbn [run] in Hf. inversion Hf; subst.
      apply IH in H as (found & missing & rest & -> & ->).
      now exists (f :: found), missing, rest.
Qed.

(** X6: when [save_branch] returns, the ledger it read has an entry for the
    working branch whose owner is the acting identity, not empty; after the
    read it asked for the identity, probed each folder of the entry, and then
    staged exactly the folders of the entry, committed with the message and
    pushed. The status file is not written. *)
Theorem save_branch_Ok core msg (w : world) w' t :
  run h (save_branch core msg) w = (Ok tt, w', t) ->
  exists ledger w1 t1 folders,
    let branch := fst (h ActiveBranch w) in
    let owner := fst (h ConfigUserName w1) in
    run h (branch_status core) (snd (h ActiveBranch w)) = (Ok ledger, w1, t1)
    /\ next_entry branch ledger = Some (branch, folders, owner)
    /\ owner <> ""
    /\ t = ActiveBranch :: t1 ++ ConfigUserName :: map PathExists folders
           ++ [GitAdd folders; GitCommit msg; GitPush].
Proof.
  unfold save_branch. intros H.
  apply run_bind_Ok in H as (wb & w0 & t0 & tr & Hw & H & ->).
  rewrite run_get_working_branch in Hw. inversion Hw; subst wb w0 t0. clear Hw.
  apply run_bind_Ok in H as ([entries [[b folders] owner]] & w1 & t1 & t2 & Hf & H & ->).
  apply run_get_filtered_entries_Ok in Hf as (ledger & Hs & Hn & _).
  apply run_bind_Ok in H as (user & w2 & t3 & t4 & Hu & H & ->).
  rewrite run_get_user_name in Hu. inversion Hu; subst user w2 t3. clear Hu.
  apply run_bind_Ok in H as ([] & w3 & t5 & t6 & Hc & H & ->).
  rewrite run_lift in Hc. inversion Hc as [[Hc' Hw3 Ht5]]. subst w3 t5. clear Hc.
  apply run_bind_Ok in H as ([] & w4 & t7 & t8 & Hp & H & ->).
  apply run_probe_folders_Ok in Hp. subst t7.
  rewrite run_add_commit_push in H. inversion H; subst. clear H.
  destruct (String.eqb_spec owner "") as [|Hne]; [discriminate|].
  match type of Hc' with
  | context [String.eqb owner ?user] =>
      destruct (String.eqb_spec owner user) as [Ho|]; [|cbn in Hc'; discriminate]
  end.
  destruct (next_entry_Some _ _ _ Hn) as [_ Hb]. cbn in Hb. subst b.
  subst owner. exists ledger, w1, t1, folders. cbv zeta.
  repeat split; try assumption.
Qed.

(** X7: when [save_branch] raises MissingFolder, the acting identity owns
    the entry of the working branch, and the last call was the probe of a
    folder of that entry: the folders before it were probed in order, and
    nothing was staged, committed or pushed after the ledger was read. *)
Theorem save_branch_MissingFolder core msg (w : world) w' t :
  run h (save_branch core msg) w = (Err (Program MissingFolderError), w', t) ->
  exists ledger w1 t1 folders found missing rest,
    let branch := fst (h ActiveBranch w) in
    let owner := fst (h ConfigUserName w1) in
    run h (branch_status core) (snd (h ActiveBranch w)) = (Ok ledger, w1, t1)
    /\ next_entry branch ledger = Some (branch, folders, owner)
    /\ folders = found ++ missing :: rest
    /\ t = ActiveBranch :: t1 ++ ConfigUserName :: map PathExists (found ++ [missing]).
Proof.
  unfold save_branch. intros H.
  apply run_bind_Err in H as [H|(wb & w0 & t0 & tr & Hw & H & ->)];
    [rewrite run_get_working_branch in H; discriminate|].
  rewrite run_get_working_branch in Hw. inversion Hw; subst wb w0 t0. clear Hw.
  apply run_bind_Err in H as [H|([entries [[b folders] owner]] & w1 & t1 & t2 & Hf & H & ->)].
  { apply (raises_in_run h _ _ _ _ _ _ (ErrorSets.get_filtered_entries_raises _ _)) in H.
    exfalso. revert H. unfold any_of, lookup_errors, read_errors. cbn.
    intuition discriminate. }
  apply run_get_filtered_entries_Ok in Hf as (ledger & Hs & Hn & _).
  apply run_bind_Err in H as [H|(user & w2 & t3 & t4 & Hu & H & ->)];
    [rewrite run_get_user_name in H; discriminate|].
  rewrite run_get_user_name in Hu. inversion Hu; subst user w2 t3. clear Hu.
  apply run_bind_Err in H as [H|([] & w3 & t5 & t6 & Hc & H & ->)].
  { rewrite run_lift in H. apply (f_equal (fun x => fst (fst x))) in H. cbn [fst] in H.
    apply ErrorSets.check_ownership_raises in H as [H|H]; discriminate. }
  rewrite run_lift in Hc. inversion Hc as [[Hc' Hw3 Ht5]]. subst w3 t5. clear Hc.
  destruct (String.eqb_spec owner "") as [|Hne]; [discriminate|].
  match type of Hc' with
  | context [String.eqb owner ?user] =>
      destruct (String.eqb_spec owner user) as [Ho|]; [|cbn in Hc'; discriminate]
  end.
  destruct (next_entry_Some _ _ _ Hn) as [_ Hb]. cbn in Hb. subst b.
  apply run_bind_Err in H as [H|([] & w4 & t7 & t8 & Hp & H & ->)].
  - apply run_probe_folders_Err in H as (found & missing & rest & Hfo & ->).
    subst owner. exists ledger, w1, t1, folders, found, missing, rest. cbv zeta.
    repeat split; assumption.
  - rewrite run_add_commit_push in H. discriminate.
Qed.

End SaveBranchRun.

Section MoveBranchRun.
Context {world : Type} (h : forall c : cmd, world -> resp c * world).

(** X8: once the remote branches and the ledger are read, [move_branch]
    checks the branch out. When the checkout is refused it raises Unsaved;
    when the ledger has no entry for the branch it returns after asking for
    the identity. In both cases no directory is listed and no file mode is
    changed, and the branch need not be a remote branch. *)
Theorem move_branch_leaves_modes core branch (w : world) remote w0 t0 ledger w1 t1 :
  run h get_remote_branches w = (Ok remote, w0, t0) ->
  run h (get_entries core remote) w0 = (Ok ledger, w1, t1) ->
  fst (h (GitCheckout branch) w1) = false \/ next_entry branch ledger = None ->
  run h (move_branch core branch) w
  = if fst (h (GitCheckout branch) w1)
    then (Ok tt, snd (h ConfigUserName (snd (h (GitCheckout branch) w1))),
          t0 ++ t1 ++ [GitCheckout branch; ConfigUserName])
    else (Err (Program UnsavedError), snd (h (GitCheckout branch) w1),
          t0 ++ t1 ++ [GitCheckout branch]).
Proof.
  intros Hr He Hc. unfold move_branch.
  rewrite run_bind, Hr, run_bind, He, run_bind, run_to_branch.
  destruct (fst (h (GitCheckout branch) w1)) eqn:Eo.
  - destruct Hc as [Hc|Hn]; [discriminate|].
    rewrite run_bind, run_get_user_name.
    unfold update_perms_using_entries. rewrite Hn. cbn [run]. reflexivity.
  - reflexivity.
Qed.

End MoveBranchRun.


(* ================================================================= *)
(** ** Ownership, modes, the bootstrap and changes of owner *)

(** X9: the two modes of [check_ownership] hand a branch over. When a claim
    passes the check (UNCLAIMED succeeds), the entry then owned by the
    identity lets that identity release it and refuses a second claim with
    AlreadyOwned, and any other identity is refused both with Protected.
    When a release passes the check, the entry with the empty owner lets the
    same identity claim it and refuses a release with Unowned. No owner
    passes both checks. *)
Theorem check_ownership_handover (identity owner other : string) :
  (check_ownership identity owner UNCLAIMED = Ok tt ->
   check_ownership identity identity CLAIMED = Ok tt
   /\ check_ownership identity identity UNCLAIMED = Err (Program AlreadyOwnedError)
   /\ (other <> identity ->
       check_ownership other identity CLAIMED = Err (Program ProtectedBranchError)
       /\ check_ownership other identity UNCLAIMED = Err (Program ProtectedBranchError)))
  /\ (check_ownership identity owner CLAIMED = Ok tt ->
      check_ownership identity "" UNCLAIMED = Ok tt
      /\ check_ownership identity "" CLAIMED = Err (Program UnownedBranchError))
  /\ ~ (check_ownership identity owner UNCLAIMED = Ok tt
        /\ check_ownership identity owner CLAIMED = Ok tt).
Proof.
  rewrite !check_ownership_unclaimed, !check_ownership_claimed.
  rewrite String.eqb_refl.
  destruct (String.eqb_spec owner identity) as [E|N];
    destruct (String.eqb_spec owner "") as [E'|N'];
    destruct (String.eqb_spec identity "") as [Ei|Ni];
    destruct (String.eqb_spec "" identity) as [Ej|Nj];
    destruct (String.eqb_spec identity other) as [Eo|No];
    repeat split; intros; try congruence; try discriminate;
    try (intros [? ?]; discriminate).
Qed.

(** X10: the messages of [error_msgs] tell the errors apart: two different
    errors never have the same message. *)
Theorem error_msgs_distinct (e1 e2 : ProgramError) :
  e1 <> e2 -> error_msgs e1 <> error_msgs e2.
Proof.
  intros Hne H. apply Hne. clear Hne.
  destruct e1, e2; try reflexivity; vm_compute in H; discriminate H.
Qed.

Section Modes.
Context {world : Type} (h : forall c : cmd, world -> resp c * world).

(** X11: on every platform, [set_folder_perms] lists the folder with
    [os.walk] and then only changes file modes. Every mode it sets lets the
    owner read and has no execute bit; with READ_ONLY no write bit is set,
    for anyone, and with READ_WRITE the owner may write. *)
Theorem set_folder_perms_modes platform folder perm (w : world) c :
  In c (trace h (set_folder_perms platform folder perm) w) ->
  c = Walk folder
  \/ exists path mode,
       c = Chmod path mode
       /\ Z.testbit mode 8 = true
       /\ Z.land mode 73 = 0%Z
       /\ match perm with
          | READ_ONLY => Z.land mode 146 = 0%Z
          | READ_WRITE => Z.testbit mode 7 = true
          end.
Proof.
  unfold trace. rewrite run_set_folder_perms. cbn [snd]. intros H.
  apply folder_calls_modes in H as [->|(path & _ & ->)]; [now left|].
  right. exists path, (file_flags platform perm). split; [reflexivity|].
  destruct platform, perm; repeat split.
Qed.

End Modes.

Section BootstrapRun.
Context {world : Type} (h : forall c : cmd, world -> resp c * world).



End BootstrapRun.

Section CreateRun.
Context {world : Type} (h : forall c : cmd, world -> resp c * world).

Lemma run_create_body_Ok core branch entries (w : world) w' t :
  run h (save_entries core entries ("Add branch " ++ branch) ;;
         to_branch "main" ;;
         pull ;;
         create_remote_branch branch) w = (Ok tt, w', t) ->
  [ActiveBranch; GitStashU] ++ t = create_branch_calls core branch entries.
Proof.
  intros H. apply run_bind_Ok in H as ([] & w1 & t1 & t2 & Hs & H & ->).
  apply run_save_entries_Ok in Hs. subst t1.
  apply run_bind_Ok in H as ([] & w2 & t3 & t4 & Hm & H & ->).
  rewrite run_to_branch in Hm. destruct (fst (h (GitCheckout "main") w1)); [|discriminate].
  inversion Hm; subst. clear Hm.
  unfold pull, create_remote_branch, push_upstream_origin, call in H. cbn [bind] in H.
  rewrite !run_Call in H. cbn [run] in H. inversion H; subst. reflexivity.
Qed.

(** X13: when [create_branch] returns, the folder list is not empty and
    holds no reserved name, the branch is not among the remote branches,
    and after reading the ledger and the local branches the calls were, in
    this order: the stash of the guard; on the status branch, the write of
    the ledger read followed by the new entry with the empty owner, its
    commit and its push; the checkout and the pull of [main]; only then
    the creation of the branch, from [main], and its push. *)
Theorem create_branch_Ok core branch folders (w : world) w' t :
  run h (create_branch core branch folders) w = (Ok tt, w', t) ->
  folders <> []
  /\ Forall (fun folder => ~ reserved_name folder) folders
  /\ exists remote w0 t0 ledger w1 t1 after,
       run h get_remote_branches w = (Ok remote, w0, t0)
       /\ PyStr.mem branch remote = false
       /\ run h (get_entries core remote) w0 = (Ok ledger, w1, t1)
       /\ t = t0 ++ t1 ++ [Branches]
              ++ create_branch_calls core branch (ledger ++ [(branch, folders, "")])
              ++ after.
Proof.
  intros H.
  assert (Hne : folders <> []).
  { intros ->. discriminate H. }
  assert (Hv : existsb invalid_folder folders = false).
  { destruct (existsb invalid_folder folders) eqn:E; [|reflexivity].
    unfold create_branch in H. destruct folders as [|f folders]; [congruence|].
    cbn [List.length Nat.eqb] in H. rewrite (validate_folders_invalid _ E) in H.
    discriminate H. }
  split; [exact Hne|]. split.
  { apply Forall_forall. intros f Hf Hr. apply invalid_folder_reserved in Hr.
    assert (existsb invalid_folder folders = true); [|congruence].
    apply existsb_exists. now exists f. }
  rewrite (run_create_branch_valid h _ _ _ _ Hne Hv) in H.
  apply run_bind_Ok in H as (remote & w0 & t0 & tr & Hr & H & ->).
  apply run_bind_Ok in H as (ledger & w1 & t1 & tr' & He & H & ->).
  apply run_bind_Ok in H as (locals & w2 & t4 & t5 & Hl & H & ->).
  rewrite run_get_local_branches in Hl. inversion Hl; subst locals w2 t4. clear Hl.
  destruct (PyStr.mem branch remote) eqn:Hm; [discriminate H|].
  match type of H with
  | context [PyStr.mem branch ?l] => destruct (PyStr.mem branch l); [discriminate H|]
  end.
  cbv zeta in H.
  apply run_bind_Ok in H as ([] & w3 & t6 & t7 & Hg & H & ->).
  rewrite (run_with_SaveBranch h) in Hg. cbv zeta in Hg.
  destruct (run h (save_entries _ _ _ ;; _) _) as [[rb wb] tb] eqn:Eb. cbn [fst snd] in Hg.
  destruct (fst (h (GitCheckout _) wb)); [|discriminate].
  inversion Hg as [[Hrb Hw Ht]]. subst rb. clear Hg Hw.
  apply run_create_body_Ok in Eb.
  subst t6. exists remote, w0, t0, ledger, w1, t1.
  match goal with
  | |- context [GitCheckout ?b :: ?tail] => exists (GitCheckout b :: tail ++ t7)
  end.
  split; [exact Hr|]. split; [exact Hm|]. split; [exact He|].
  rewrite <- Eb. cbn [app]. rewrite <- !app_assoc. reflexivity.
Qed.

End CreateRun.

Section ChangeOwnerRun.
Context {world : Type} (h : forall c : cmd, world -> resp c * world).

Lemma not_lookup_error e : In e ownership_errors -> ~ In e lookup_errors.
Proof.
  unfold ownership_errors, lookup_errors, read_errors. cbn.
  intros [<-|[<-|[<-|[]]]]; intuition discriminate.
Qed.

Lemma change_owner_refused core branch want new_owner msg (w : world) e w' t :
  In e ownership_errors ->
  run h (change_owner core branch want new_owner msg) w = (Err e, w', t) ->
  exists entries entry w1 t1,
    run h (get_filtered_entries core branch) w = (Ok (entries, entry), w1, t1)
    /\ check_ownership (fst (h ConfigUserName w1)) (entry_owner entry) want = Err e
    /\ t = t1 ++ [ConfigUserName]
    /\ w' = snd (h ConfigUserName w1).
Proof.
  intros Hin H. unfold change_owner in H.
  apply run_bind_Err in H as [H|([entries [[b folders] owner]] & w1 & t1 & t2 & Hf & H & ->)].
  { apply (raises_in_run h _ _ _ _ _ _ (ErrorSets.get_filtered_entries_raises _ _)) in H.
    now destruct (not_lookup_error e Hin). }
  apply run_bind_Err in H as [H|(user & w2 & t3 & t4 & Hu & H & ->)];
    [rewrite run_get_user_name in H; discriminate|].
  rewrite run_get_user_name in Hu. inversion Hu; subst user w2 t3. clear Hu.
  apply run_bind_Err in H as [H|([] & w3 & t5 & t6 & Hc & H & ->)].
  - rewrite run_lift in H.
    exists entries, (b, folders, owner), w1, t1. split; [exact Hf|].
    assert (E1 := f_equal (fun x => fst (fst x)) H).
    assert (E2 := f_equal (fun x => snd (fst x)) H).
    assert (E3 := f_equal snd H). cbn [fst snd] in E1, E2, E3.
    subst w' t4. repeat split. exact E1.
  - exfalso.
    assert (R := ErrorSets.guarded_save_then_perms core (fst (h ConfigUserName w1))
                   (entries ++ [(branch, folders, new_owner (fst (h ConfigUserName w1)))])
                   (msg (fst (h ConfigUserName w1)))
                   (any_of [Program UnsavedError; Program ApplyPermissionsError])).
    cbv zeta in H.
    apply (raises_in_run h _ _ _ _ _ _ (R (or_introl eq_refl) (or_intror (or_introl eq_refl))))
      in H.
    revert H Hin. unfold any_of, ownership_errors. cbn. intuition congruence.
Qed.


(** X14: when [checkout_branch] or [checkin_branch] is refused by the
    ownership check (AlreadyOwned, Protected or Unowned), the entry of the
    branch was found, the identity was asked for, and nothing was called
    afterwards: the status file is not written and nothing is committed or
    pushed. *)
Theorem refused_change_writes_nothing core branch (w : world) e w' t :
  In e ownership_errors ->
  (run h (checkout_branch core branch) w = (Err e, w', t) ->
   exists entries entry w1 t1,
     run h (get_filtered_entries core branch) w = (Ok (entries, entry), w1, t1)
     /\ check_ownership (fst (h ConfigUserName w1)) (entry_owner entry) UNCLAIMED = Err e
     /\ t = t1 ++ [ConfigUserName]
     /\ w' = snd (h ConfigUserName w1))
  /\ (run h (checkin_branch core branch) w = (Err e, w', t) ->
      exists entries entry w1 t1,
        run h (get_filtered_entries core branch) w = (Ok (entries, entry), w1, t1)
        /\ check_ownership (fst (h ConfigUserName w1)) (entry_owner entry) CLAIMED = Err e
        /\ t = t1 ++ [ConfigUserName]
        /\ w' = snd (h ConfigUserName w1)).
Proof.
  intros Hin. split; intros H.
  - eapply (change_owner_refused core branch UNCLAIMED (fun user => user)
              (fun user => "Checkout " ++ branch ++ " by " ++ user)%string);
      [exact Hin | exact H].
  - eapply (change_owner_refused core branch CLAIMED (fun _ => "")
              (fun user => "Checkin " ++ branch ++ " by " ++ user)%string);
      [exact Hin | exact H].
Qed.


End ChangeOwnerRun.


(* ================================================================= *)
(** ** The commands of [cli.py] *)

Section Commands.
Context {world : Type} (h : forall c : cmd, world -> resp c * world).

Lemma run_command (operation rest : prog unit) (w : world) :
  reports h operation (run_operation_log_result operation ;; rest) rest w.
Proof.
  unfold reports. rewrite run_bind.
  destruct (run h operation w) as [[[[]|e] w1] t1] eqn:E.
  - now rewrite (run_operation_log_result_Ok h _ _ _ _ _ E).
  - destruct e as [pe| | |code].
    + destruct (run_operation_log_result_ProgramError h _ _ _ _ _ E) as (m & Hm & Hr).
      exists m. split; [exact Hm|]. now rewrite Hr.
    + now rewrite (run_operation_log_result_other h _ _ _ _ _ E eq_refl).
    + now rewrite (run_operation_log_result_other h _ _ _ _ _ E eq_refl).
    + now rewrite (run_operation_log_result_other h _ _ _ _ _ E eq_refl).
Qed.

(** X16: each of the commands [new_branch], [checkin], [checkout], [move] and
    [commit] ends in one of three ways. When the operation returns, the
    command prints its success line ([commit] asks git for the working
    branch to build it). When the operation raises one of the errors of
    [errors.py], the command prints the message of that error and ends with
    [sys.exit(1)], the success line is not printed. Any other exception
    leaves the command as it is, and nothing is printed. *)
Theorem commands_report core branch folders message (w : world) :
  reports h (create_branch core branch folders) (cli_new_branch core branch folders)
          (call (PrintLine (color ("Successfully created branch " ++ branch) [GREEN]))) w
  /\ reports h (checkin_branch core branch) (cli_checkin core branch)
          (call (PrintLine (color ("Successfully checked in branch " ++ branch) [GREEN]))) w
  /\ reports h (checkout_branch core branch) (cli_checkout core branch)
          (call (PrintLine (color ("Successfully checked out branch " ++ branch) [GREEN]))) w
  /\ reports h (move_branch core branch) (cli_move core branch)
          (call (PrintLine (color ("Successfully moved to branch " ++ branch) [GREEN]))) w
  /\ reports h (save_branch core message) (cli_commit core message)
          (working_branch <- get_working_branch ;;
           call (PrintLine (color ("Successfully saved branch " ++ working_branch) [GREEN])))
          w.
Proof. repeat split; apply run_command. Qed.

End Commands.

Section BootstrapRead.
Context {world : Type} (h : forall c : cmd, world -> resp c * world).


End BootstrapRead.


(* ================================================================= *)
(** ** Runs on the small repository *)


Lemma get_filtered_entries_spec_witness :
  final git (get_filtered_entries demo_core "feature-z") pruned_repo = pruned_repo
  /\ trace git (get_filtered_entries demo_core "feature-z") pruned_repo
     = [GitRemoteUpdate; RemoteRefs] ++ [GitFetch "status"; GitShow "origin/status:status.txt"]
  /\ exists l1 l2,
       [("feature-x", ["partA"], "alice"); ("feature-z", ["partC"; "partD"], "")]
       = l1 ++ ("feature-z", ["partC"; "partD"], "") :: l2
       /\ Forall (fun x => entry_branch x <> "feature-z") l1
       /\ entry_branch ("feature-z", ["partC"; "partD"], "") = "feature-z"
       /\ outcome git (get_filtered_entries demo_core "feature-z") pruned_repo
          = Ok (l1 ++ l2, ("feature-z", ["partC"; "partD"], "")).
Proof.
  apply (get_filtered_entries_spec git demo_core "feature-z" pruned_repo
           ["main"; "status"; "feature-x"; "feature-z"] pruned_repo
           [GitRemoteUpdate; RemoteRefs]
           [("feature-x", ["partA"], "alice"); ("feature-z", ["partC"; "partD"], "")]
           pruned_repo [GitFetch "status"; GitShow "origin/status:status.txt"]);
    reflexivity.
Defined.

Lemma save_branch_Ok_witness :
  exists ledger w1 t1 folders,
    run git (branch_status demo_core) (set_active "feature-x" claimed_repo)
      = (Ok ledger, w1, t1)
    /\ next_entry "feature-x" ledger = Some ("feature-x", folders, fst (git ConfigUserName w1))
    /\ fst (git ConfigUserName w1) <> ""
    /\ trace git (save_branch demo_core "Route the board") (set_active "feature-x" claimed_repo)
       = ActiveBranch :: t1 ++ ConfigUserName :: map PathExists folders
         ++ [GitAdd folders; GitCommit "Route the board"; GitPush].
Proof.
  apply (save_branch_Ok git demo_core "Route the board"
           (set_active "feature-x" claimed_repo)
           (final git (save_branch demo_core "Route the board")
              (set_active "feature-x" claimed_repo))
           (trace git (save_branch demo_core "Route the board")
              (set_active "feature-x" claimed_repo))).
  vm_compute. reflexivity.
Defined.

Lemma save_branch_MissingFolder_witness :
  exists ledger w1 t1 folders found missing rest,
    run git (branch_status demo_core) working_repo = (Ok ledger, w1, t1)
    /\ next_entry "feature-x" ledger = Some ("feature-x", folders, fst (git ConfigUserName w1))
    /\ folders = found ++ missing :: rest
    /\ trace git (save_branch demo_core "Route the board") working_repo
       = ActiveBranch :: t1 ++ ConfigUserName :: map PathExists (found ++ [missing]).
Proof.
  apply (save_branch_MissingFolder git demo_core "Route the board" working_repo
           (final git (save_branch demo_core "Route the board") working_repo)
           (trace git (save_branch demo_core "Route the board") working_repo)).
  vm_compute. reflexivity.
Defined.

Lemma move_branch_leaves_modes_witness :
  run git (move_branch demo_core "main") working_repo
  = (Ok tt, set_active "main" working_repo,
     [GitRemoteUpdate; RemoteRefs] ++ [GitFetch "status"; GitShow "origin/status:status.txt"]
     ++ [GitCheckout "main"; ConfigUserName]).
Proof.
  apply (move_branch_leaves_modes git demo_core "main" working_repo
           ["main"; "status"; "feature-x"] working_repo [GitRemoteUpdate; RemoteRefs]
           [("feature-x", ["partA"; "partC"], "alice")] working_repo
           [GitFetch "status"; GitShow "origin/status:status.txt"]);
    [reflexivity | reflexivity | right; reflexivity].
Defined.

Lemma check_ownership_handover_witness :
  check_ownership "alice" "alice" CLAIMED = Ok tt
  /\ check_ownership "alice" "alice" UNCLAIMED = Err (Program AlreadyOwnedError)
  /\ ("bob" <> "alice" ->
      check_ownership "bob" "alice" CLAIMED = Err (Program ProtectedBranchError)
      /\ check_ownership "bob" "alice" UNCLAIMED = Err (Program ProtectedBranchError)).
Proof.
  apply (proj1 (check_ownership_handover "alice" "" "bob")). reflexivity.
Defined.

Lemma error_msgs_distinct_witness :
  error_msgs UnownedBranchError <> error_msgs ProtectedBranchError.
Proof. apply (error_msgs_distinct UnownedBranchError ProtectedBranchError). discriminate. Defined.

Lemma set_folder_perms_modes_witness :
  Chmod "partA/a.pcb" 292 = Walk "partA"
  \/ exists path mode,
       Chmod "partA/a.pcb" 292 = Chmod path mode
       /\ Z.testbit mode 8 = true
       /\ Z.land mode 73 = 0%Z
       /\ Z.land mode 146 = 0%Z.
Proof.
  apply (set_folder_perms_modes git LINUX "partA" READ_ONLY (fresh "alice")).
  vm_compute. tauto.
Defined.


Lemma create_branch_Ok_witness :
  ["partA"] <> []
  /\ Forall (fun folder => ~ reserved_name folder) ["partA"]
  /\ exists remote w0 t0 ledger w1 t1 after,
       run git get_remote_branches (fresh "alice") = (Ok remote, w0, t0)
       /\ PyStr.mem "feature-x" remote = false
       /\ run git (get_entries demo_core remote) w0 = (Ok ledger, w1, t1)
       /\ trace git (create_branch demo_core "feature-x" ["partA"]) (fresh "alice")
          = t0 ++ t1 ++ [Branches]
            ++ create_branch_calls demo_core "feature-x"
                 (ledger ++ [("feature-x", ["partA"], "")])
            ++ after.
Proof.
  apply (create_branch_Ok git demo_core "feature-x" ["partA"] (fresh "alice")
           (final git (create_branch demo_core "feature-x" ["partA"]) (fresh "alice"))
           (trace git (create_branch demo_core "feature-x" ["partA"]) (fresh "alice"))).
  unfold final, trace. vm_compute. reflexivity.
Defined.

Lemma refused_change_writes_nothing_witness :
  exists entries entry w1 t1,
    run git (get_filtered_entries demo_core "feature-x") created_repo
      = (Ok (entries, entry), w1, t1)
    /\ check_ownership (fst (git ConfigUserName w1)) (entry_owner entry) CLAIMED
       = Err (Program UnownedBranchError)
    /\ trace git (checkin_branch demo_core "feature-x") created_repo = t1 ++ [ConfigUserName]
    /\ final git (checkin_branch demo_core "feature-x") created_repo
       = snd (git ConfigUserName w1).
Proof.
  assert (Hin : In (Program UnownedBranchError) ownership_errors) by (cbn; tauto).
  apply (proj2 (refused_change_writes_nothing git demo_core "feature-x" created_repo
                  (Program UnownedBranchError)
                  (final git (checkin_branch demo_core "feature-x") created_repo)
                  (trace git (checkin_branch demo_core "feature-x") created_repo) Hin)).
  vm_compute. reflexivity.
Defined.


Lemma commands_report_witness :
  run git (cli_checkin demo_core "feature-x") created_repo
  = (Err (SystemExit 1), created_repo,
     [GitRemoteUpdate; RemoteRefs; GitFetch "status"; GitShow "origin/status:status.txt";
      ConfigUserName; PrintLine (color "Branch has no owner" [RED])]).
Proof.
  destruct (commands_report git demo_core "feature-x" [] "" created_repo) as (_ & H & _).
  unfold reports in H.
  change (run git (checkin_branch demo_core "feature-x") created_repo)
    with (@Err unit (Program UnownedBranchError), created_repo,
          [GitRemoteUpdate; RemoteRefs; GitFetch "status";
           GitShow "origin/status:status.txt"; ConfigUserName]) in H.
  destruct H as (message & Hm & Hr). inversion Hm; subst message. exact Hr.
Defined.

